(** * bempp-cl: Laplace potential operator factories and array helpers

    A shallow embedding of
      - [bempp/api/operators/potential/laplace.py]
      - [bempp/api/utils/helpers.py]
    Python functions become functions in a small state-and-exception monad
    over the part of the interpreter state they read or write.  Objects that
    Python compares by identity are names ([addr]) into a store. *)

From Stdlib Require Import ZArith String List Bool Lia.
From stdpp Require Import gmap strings list fin_maps.

Local Open Scope string_scope.
Local Open Scope Z_scope.

(* ===================================================================== *)
(** ** Python values, exceptions, and the monad of Python calls *)
(* ===================================================================== *)

(** Name of an object; two references are the same object ([is]) exactly
    when the names are equal. *)
Abbreviation addr := nat.

(** The values the modelled functions handle.  [VObj] is a reference to
    any other object (a space, a device interface, a parameters object, an
    array), known by identity only. *)
Inductive value : Type :=
| VNone
| VBool (b : bool)
| VInt (n : Z)
| VStr (s : string)
| VObj (a : addr).
Arguments VObj a%_nat.

(** Exceptions raised by the modelled code and by the numpy calls it makes.
    [Fault] stands for the use of a name that has no object in the store; a
    Python run never gets there, the store being closed under references. *)
Inductive exn : Type :=
| ValueError (msg : string)
| KeyError (key : string)
| TypeError (msg : string)
| Fault.

Inductive outcome (S A : Type) : Type :=
| Returns (a : A) (s : S)
| Raises (e : exn).
Arguments Returns {S A} a s.
Arguments Raises {S A} e.

(** A call: from the state before it to the returned value with the state
    after it, or to the exception it raises. *)
Definition Py (S A : Type) : Type := S -> outcome S A.

Definition ret {S A} (a : A) : Py S A := fun s => Returns a s.

Definition bind {S A B} (c : Py S A) (k : A -> Py S B) : Py S B :=
  fun s => match c s with
           | Returns a s' => k a s'
           | Raises e => Raises e
           end.

Definition raise {S A} (e : exn) : Py S A := fun _ => Raises e.

Definition gets {S A} (f : S -> A) : Py S A := fun s => Returns (f s) s.

Notation "'let!' x ':=' c 'in' k" := (bind c (fun x => k))
  (at level 10, x name, c at level 100, k at level 200).

(** What a finished call returned. *)
Definition returned {S A} (o : outcome S A) : option A :=
  match o with Returns a _ => Some a | Raises _ => None end.

(* ===================================================================== *)
(** ** The [bempp.api] module state *)
(* ===================================================================== *)

(** The attributes of an object, by attribute name. *)
Definition pyobject := gmap string value.

(** The part of the interpreter state behind [import bempp.api]: the two
    module attributes the code reads, and the store of objects that
    references point into. *)
Record bempp_api : Type := {
  DEFAULT_PRECISION : value;
  GLOBAL_PARAMETERS : value;
  objects : gmap addr pyobject;
}.

(* ===================================================================== *)
(** ** helpers.py: assign_parameters *)
(* ===================================================================== *)

(** [assign_parameters(parameters)], helpers.py lines 25-40. *)
Definition assign_parameters (parameters : value) : Py bempp_api value :=
  let! new_parameters :=
    match parameters with
    | VNone => gets GLOBAL_PARAMETERS
    | _ => ret parameters
    end in
  ret new_parameters.

(* ===================================================================== *)
(** ** numpy: the array objects and the calls helpers.py makes *)
(* ===================================================================== *)

(** helpers.py works on numpy arrays through [numpy.require],
    [ndarray.astype] and the attribute [dtype].  numpy is a library, not
    part of the repository; this section models the array object (type,
    element type, shape, strides, flags) and those calls after numpy's
    reference documentation and its implementation of the flags. *)

(** Element types.  An element type of more than one byte exists in the
    byte order of the machine, under the name numpy gives it, and in the
    other byte order ([_swapped]); numpy keeps the two apart: they do not
    compare equal. *)
Inductive np_dtype : Type :=
| bool_ | int8 | int16 | int32 | int64 | uint8
| float16 | float32 | float64 | complex64 | complex128
| int16_swapped | int32_swapped | int64_swapped
| float16_swapped | float32_swapped | float64_swapped
| complex64_swapped | complex128_swapped.

#[global] Instance np_dtype_eq_dec : EqDecision np_dtype.
Proof. solve_decision. Defined.

(** Size of one element in bytes. *)
Definition itemsize (d : np_dtype) : Z :=
  match d with
  | bool_ | int8 | uint8 => 1
  | int16 | float16 | int16_swapped | float16_swapped => 2
  | int32 | float32 | int32_swapped | float32_swapped => 4
  | int64 | float64 | complex64
  | int64_swapped | float64_swapped | complex64_swapped => 8
  | complex128 | complex128_swapped => 16
  end.

(** Whether the elements are in the byte order of the machine. *)
Definition native_byte_order (d : np_dtype) : bool :=
  match d with
  | int16_swapped | int32_swapped | int64_swapped
  | float16_swapped | float32_swapped | float64_swapped
  | complex64_swapped | complex128_swapped => false
  | _ => true
  end.

(** [d.name]: the name of the element type, which leaves the byte order
    out. *)
Definition dtype_name (d : np_dtype) : string :=
  match d with
  | bool_ => "bool"
  | int8 => "int8"
  | uint8 => "uint8"
  | int16 | int16_swapped => "int16"
  | int32 | int32_swapped => "int32"
  | int64 | int64_swapped => "int64"
  | float16 | float16_swapped => "float16"
  | float32 | float32_swapped => "float32"
  | float64 | float64_swapped => "float64"
  | complex64 | complex64_swapped => "complex64"
  | complex128 | complex128_swapped => "complex128"
  end.

(** [numpy.dtype(name)] for the names of the element types above; a name
    stands for the element type in the byte order of the machine. *)
Definition dtype_of_name (name : string) : option np_dtype :=
  if String.eqb name "bool" then Some bool_
  else if String.eqb name "int8" then Some int8
  else if String.eqb name "int16" then Some int16
  else if String.eqb name "int32" then Some int32
  else if String.eqb name "int64" then Some int64
  else if String.eqb name "uint8" then Some uint8
  else if String.eqb name "float16" then Some float16
  else if String.eqb name "float32" then Some float32
  else if String.eqb name "float64" then Some float64
  else if String.eqb name "complex64" then Some complex64
  else if String.eqb name "complex128" then Some complex128
  else None.

(** [d == name], a dtype compared with a string: the string is read as a
    dtype; a string that names none compares unequal. *)
Definition dtype_eq_name (d : np_dtype) (name : string) : bool :=
  match dtype_of_name name with
  | Some d' => bool_decide (d = d')
  | None => false
  end.

(** The [order] argument of numpy's constructors. *)
Inductive np_order : Type := CORDER | FORTRANORDER | ANYORDER | KEEPORDER.

(** The requirement flags of [numpy.require], by their one-letter keys. *)
Inductive np_flag : Type := RC | RF | RA | RW | RO | RE.

#[global] Instance np_flag_eq_dec : EqDecision np_flag.
Proof. solve_decision. Defined.

(** numpy's table [POSSIBLE_FLAGS]; a key it does not hold is a
    [KeyError].  ([require] upper-cases each key first; helpers.py passes
    upper-case keys, and the model looks keys up as given.) *)
Definition POSSIBLE_FLAGS : list (string * np_flag) :=
  [ ("C", RC); ("C_CONTIGUOUS", RC); ("CONTIGUOUS", RC);
    ("F", RF); ("F_CONTIGUOUS", RF); ("FORTRAN", RF);
    ("A", RA); ("ALIGNED", RA);
    ("W", RW); ("WRITEABLE", RW);
    ("O", RO); ("OWNDATA", RO);
    ("E", RE); ("ENSUREARRAY", RE) ].

Fixpoint assoc {V} (key : string) (table : list (string * V)) : option V :=
  match table with
  | [] => None
  | (k, v) :: rest => if String.eqb k key then Some v else assoc key rest
  end.

Definition has_flag (r : np_flag) (rs : list np_flag) : bool :=
  existsb (fun x => bool_decide (x = r)) rs.

Definition drop_flag (r : np_flag) (rs : list np_flag) : list np_flag :=
  List.filter (fun x => negb (bool_decide (x = r))) rs.

(** *** Strides and contiguity *)

(** Strides given to a newly allocated array, innermost axis first: each
    axis steps over the extent of the axes inside it (numpy's
    [_array_fill_strides]; an axis of extent 0 does not widen the step). *)
Fixpoint fill_strides (sd : Z) (dims : list Z) : list Z :=
  match dims with
  | [] => []
  | dim :: rest =>
      sd :: fill_strides (if dim =? 0 then sd else sd * dim) rest
  end.

Definition c_strides (size : Z) (shape : list Z) : list Z :=
  rev (fill_strides size (rev shape)).

Definition f_strides (size : Z) (shape : list Z) : list Z :=
  fill_strides size shape.

(** The contiguity test of numpy's [_UpdateContiguousFlags] on the axes
    [(extent, stride)], innermost first: axes of extent 1 are skipped, every
    other axis must step by the extent of the axes inside it. *)
Fixpoint strides_match (sd : Z) (axes : list (Z * Z)) : bool :=
  match axes with
  | [] => true
  | (dim, stride) :: rest =>
      if dim =? 1 then strides_match sd rest
      else (stride =? sd) && strides_match (sd * dim) rest
  end.

(** An array with an axis of extent 0 has no element and is contiguous in
    both orders. *)
Definition has_empty_axis (shape : list Z) : bool :=
  existsb (fun dim => dim =? 0) shape.

(** Element values and their conversion between element types are numpy's
    (floating point among them), and so is the layout numpy picks for a
    copy in ['K'] order of an array contiguous in neither order.  The
    development takes them as an interface. *)
Class NumPy (scalar : Type) : Type := {
  cast : np_dtype -> np_dtype -> scalar -> scalar;
  keeporder_strides : list Z -> list Z -> Z -> list Z;
}.

Section Arrays.

Variable scalar : Type.
Context {numpy : NumPy scalar}.

(** An array object.  [exact_type] tells an instance of [numpy.ndarray]
    itself from an instance of a subclass (matrix, memmap, ...); [elems]
    lists the elements in index order. *)
Record ndarray : Type := mkndarray {
  exact_type : bool;
  dtype : np_dtype;
  shape : list Z;
  strides : list Z;
  elems : list scalar;
  ALIGNED : bool;
  OWNDATA : bool;
  WRITEABLE : bool;
}.

(** The store of array objects. *)
Definition heap : Type := gmap addr ndarray.

Definition axes (a : ndarray) : list (Z * Z) := combine (shape a) (strides a).

Definition C_CONTIGUOUS (a : ndarray) : bool :=
  has_empty_axis (shape a)
  || strides_match (itemsize (dtype a)) (rev (axes a)).

Definition F_CONTIGUOUS (a : ndarray) : bool :=
  has_empty_axis (shape a)
  || strides_match (itemsize (dtype a)) (axes a).

(** [a.flags[key]].  [require] takes E and the order key out of the
    requirements before it reads any flag, so A, W and O are the keys that
    reach this; E, which numpy's flags do not have, is given the meaning it
    has in [require]. *)
Definition flags (a : ndarray) (r : np_flag) : bool :=
  match r with
  | RC => C_CONTIGUOUS a
  | RF => F_CONTIGUOUS a
  | RA => ALIGNED a
  | RW => WRITEABLE a
  | RO => OWNDATA a
  | RE => exact_type a
  end.

(** numpy's [PyArray_ISFORTRAN]. *)
Definition ISFORTRAN (a : ndarray) : bool :=
  F_CONTIGUOUS a && negb (C_CONTIGUOUS a).

(** *** Store access *)

Definition deref (arr : addr) : Py heap ndarray :=
  fun h => match h !! arr with
           | Some a => Returns a h
           | None => Raises Fault
           end.

(** A new object gets a name no object has. *)
Definition alloc (a : ndarray) : Py heap addr :=
  fun h => let arr := fresh (dom h) in Returns arr (<[arr := a]> h).

(** *** Copies and views *)

(** Strides of a copy of [proto] with elements of [size] bytes, by the
    [order] asked for. *)
Definition order_strides (order : np_order) (proto : ndarray) (size : Z)
  : list Z :=
  match order with
  | CORDER => c_strides size (shape proto)
  | FORTRANORDER => f_strides size (shape proto)
  | ANYORDER =>
      if ISFORTRAN proto then f_strides size (shape proto)
      else c_strides size (shape proto)
  | KEEPORDER =>
      if C_CONTIGUOUS proto || (Z.of_nat (length (shape proto)) <=? 1)
      then c_strides size (shape proto)
      else if F_CONTIGUOUS proto then f_strides size (shape proto)
      else keeporder_strides (shape proto) (strides proto) size
  end.

(** Elements converted to another element type; no conversion when the
    type stays. *)
Definition cast_elems (from to : np_dtype) (l : list scalar) : list scalar :=
  if bool_decide (from = to) then l else map (cast from to) l.

(** A newly allocated copy: it owns its data, is aligned and writeable.
    With [subok] it has the type of [proto], else it is a base-class
    array. *)
Definition new_copy (proto : ndarray) (order : np_order) (dt : np_dtype)
    (subok : bool) : ndarray :=
  {| exact_type := if subok then exact_type proto else true;
     dtype := dt;
     shape := shape proto;
     strides := order_strides order proto (itemsize dt);
     elems := cast_elems (dtype proto) dt (elems proto);
     ALIGNED := true;
     OWNDATA := true;
     WRITEABLE := true |}.

(** A base-class view of [a]: a new array object on the data of [a]. *)
Definition base_view (a : ndarray) : ndarray :=
  {| exact_type := true;
     dtype := dtype a;
     shape := shape a;
     strides := strides a;
     elems := elems a;
     ALIGNED := ALIGNED a;
     OWNDATA := false;
     WRITEABLE := WRITEABLE a |}.

(** numpy's [STRIDING_OK]. *)
Definition STRIDING_OK (a : ndarray) (order : np_order) : bool :=
  match order with
  | CORDER => C_CONTIGUOUS a
  | FORTRANORDER => F_CONTIGUOUS a
  | ANYORDER | KEEPORDER => true
  end.

(** [numpy.array(arr, dtype=dtype, order=order, copy=None, subok=subok)] on
    an array object: the object itself when type, element type and layout
    are already as asked; a base-class view when only the type is not; a
    copy otherwise. *)
Definition np_array (arr : addr) (dtype' : option np_dtype)
    (order : np_order) (subok : bool) : Py heap addr :=
  let! a := deref arr in
  let dt := default (dtype a) dtype' in
  if bool_decide (dt = dtype a) && STRIDING_OK a order then
    if exact_type a || subok then ret arr
    else alloc (base_view a)
  else alloc (new_copy a order dt subok).

(** [numpy.asanyarray(arr, dtype=dtype)]. *)
Definition asanyarray (arr : addr) (dtype' : option np_dtype)
  : Py heap addr :=
  np_array arr dtype' KEEPORDER true.

(** [arr.copy(order)]. *)
Definition ndarray_copy (arr : addr) (order : np_order) : Py heap addr :=
  let! a := deref arr in
  alloc (new_copy a order (dtype a) true).

(** [arr.astype(name, copy=copy)], with the defaults [order='K'],
    [casting='unsafe'], [subok=True]. *)
Definition astype (arr : addr) (name : string) (copy : bool)
  : Py heap addr :=
  let! a := deref arr in
  match dtype_of_name name with
  | None => raise (TypeError "data type not understood")
  | Some dt =>
      if negb copy && bool_decide (dt = dtype a) then ret arr
      else alloc (new_copy a KEEPORDER dt true)
  end.

(** [{POSSIBLE_FLAGS[x] for x in requirements}]. *)
Fixpoint requirement_flags (requirements : list string)
  : Py heap (list np_flag) :=
  match requirements with
  | [] => ret []
  | x :: rest =>
      match assoc x POSSIBLE_FLAGS with
      | None => raise (KeyError x)
      | Some r =>
          let! rs := requirement_flags rest in
          ret (r :: rs)
      end
  end.

(** [numpy.require(arr, dtype, requirements=requirements)], after its
    Python source (numpy/_core/_asarray.py). *)
Definition require (arr : addr) (dtype' : option np_dtype)
    (requirements : list string) : Py heap addr :=
  match requirements with
  | [] => asanyarray arr dtype'
  | _ =>
      let! requirements := requirement_flags requirements in
      let subok := negb (has_flag RE requirements) in
      let requirements := drop_flag RE requirements in
      if has_flag RC requirements && has_flag RF requirements then
        raise (ValueError "Cannot specify both C and F order")
      else
        let order :=
          if has_flag RF requirements then FORTRANORDER
          else if has_flag RC requirements then CORDER
          else ANYORDER in
        let requirements :=
          if has_flag RF requirements then drop_flag RF requirements
          else if has_flag RC requirements then drop_flag RC requirements
          else requirements in
        let! arr := np_array arr dtype' order subok in
        let! a := deref arr in
        if forallb (flags a) requirements then ret arr
        else ndarray_copy arr order
  end.

(* ===================================================================== *)
(** ** helpers.py: align_array and promote_to_double_precision *)
(* ===================================================================== *)

(** [align_array(arr, dtype, order)], helpers.py lines 6-22. *)
Definition align_array (arr : addr) (dtype : np_dtype) (order : string)
  : Py heap addr :=
  let! requirements :=
    if String.eqb order "F" then ret ["A"; "F"; "O"; "E"]
    else if String.eqb order "C" then ret ["A"; "C"; "O"; "E"]
    else raise (ValueError "order must be one of 'C' or 'F'.") in
  require arr (Some dtype) requirements.

(** [array.dtype == name]. *)
Definition dtype_is (array : addr) (name : string) : Py heap bool :=
  let! a := deref array in
  ret (dtype_eq_name (dtype a) name).

(** [promote_to_double_precision(array)], helpers.py lines 43-50. *)
Definition promote_to_double_precision (array : addr) : Py heap addr :=
  let! is_float32 := dtype_is array "float32" in
  if is_float32 then astype array "float64" false
  else
    let! is_complex64 := dtype_is array "complex64" in
    if is_complex64 then astype array "complex128" false
    else ret array.

End Arrays.

Arguments exact_type {scalar} _.
Arguments dtype {scalar} _.
Arguments shape {scalar} _.
Arguments strides {scalar} _.
Arguments elems {scalar} _.
Arguments ALIGNED {scalar} _.
Arguments OWNDATA {scalar} _.
Arguments WRITEABLE {scalar} _.
Arguments mkndarray {scalar} _ _ _ _ _ _ _ _.
Arguments axes {scalar} _.
Arguments C_CONTIGUOUS {scalar} _.
Arguments F_CONTIGUOUS {scalar} _.
Arguments flags {scalar} _ _.
Arguments ISFORTRAN {scalar} _.
Arguments deref {scalar} _ _.
Arguments alloc {scalar} _ _.
Arguments base_view {scalar} _.
Arguments STRIDING_OK {scalar} _ _.
Arguments requirement_flags {scalar} _ _.
Arguments dtype_is {scalar} _ _ _.
Arguments order_strides {scalar numpy} _ _ _.
Arguments cast_elems {scalar numpy} _ _ _.
Arguments new_copy {scalar numpy} _ _ _ _.
Arguments np_array {scalar numpy} _ _ _ _ _.
Arguments asanyarray {scalar numpy} _ _ _.
Arguments ndarray_copy {scalar numpy} _ _ _.
Arguments astype {scalar numpy} _ _ _ _.
Arguments require {scalar numpy} _ _ _ _.
Arguments align_array {scalar numpy} _ _ _ _.
Arguments promote_to_double_precision {scalar numpy} _ _.

(* ===================================================================== *)
(** ** laplace.py: the four operator factories *)
(* ===================================================================== *)

Module laplace.

(** Modelled from the spec: the record type [OperatorDescriptor] is
    declared in [bempp/api/operators/__init__.py], which is not among the
    sources.  Its fields and their order are those of the spec's data
    model (section 3) and of the comments on the constructor calls in
    laplace.py. *)
Record OperatorDescriptor : Type := mkOperatorDescriptor {
  identifier : string;
  options : list value;
  kernel_type : string;
  assembly_type : string;
  precision : value;
  is_complex : bool;
  singular_part : value;
  kernel_dimension : Z;
}.

(** Modelled from the spec: [PotentialAssembler] and [PotentialOperator]
    are classes of [bempp.api.assembly], not among the sources.  The spec
    keeps them opaque (section 4.4): what crosses the boundary is the
    values handed to the constructor, which the model records as they are
    passed, in the order of the call. *)
Record PotentialAssembler : Type := mkPotentialAssembler {
  pa_space : value;
  pa_points : value;
  pa_operator_descriptor : OperatorDescriptor;
  pa_device_interface : value;
  pa_assembler : value;
  pa_parameters : value;
}.

Inductive PotentialOperator : Type :=
| mkPotentialOperator (assembler : PotentialAssembler).

Definition po_assembler (op : PotentialOperator) : PotentialAssembler :=
  match op with mkPotentialOperator a => a end.

(** The statement shared by the four functions (lines 18-19, 53-54,
    88-89, 122-123):
      [if precision is None: precision = bempp.api.DEFAULT_PRECISION] *)
Definition resolve_precision (precision : value) : Py bempp_api value :=
  match precision with
  | VNone => gets DEFAULT_PRECISION
  | _ => ret precision
  end.

(** laplace.py lines 4-36. *)
Definition single_layer
    (space points parameters assembler device_interface precision : value)
  : Py bempp_api PotentialOperator :=
  let! precision := resolve_precision precision in
  let operator_descriptor :=
    mkOperatorDescriptor
      "laplace_single_layer_potential"
      []
      "laplace_single_layer"
      "default_scalar"
      precision
      false
      VNone
      1 in
  ret (mkPotentialOperator
         (mkPotentialAssembler
            space points operator_descriptor device_interface assembler
            parameters)).

(** laplace.py lines 39-71. *)
Definition single_layer_gradient
    (space points parameters assembler device_interface precision : value)
  : Py bempp_api PotentialOperator :=
  let! precision := resolve_precision precision in
  let operator_descriptor :=
    mkOperatorDescriptor
      "laplace_single_layer_potential_gradient"
      []
      "laplace_single_layer_gradient"
      "laplace_single_layer_gradient"
      precision
      false
      VNone
      3 in
  ret (mkPotentialOperator
         (mkPotentialAssembler
            space points operator_descriptor device_interface assembler
            parameters)).

(** laplace.py lines 74-106. *)
Definition double_layer
    (space points parameters assembler device_interface precision : value)
  : Py bempp_api PotentialOperator :=
  let! precision := resolve_precision precision in
  let operator_descriptor :=
    mkOperatorDescriptor
      "laplace_double_layer_potential"
      []
      "laplace_double_layer"
      "default_scalar"
      precision
      false
      VNone
      1 in
  ret (mkPotentialOperator
         (mkPotentialAssembler
            space points operator_descriptor device_interface assembler
            parameters)).

(** laplace.py lines 108-140. *)
Definition double_layer_gradient
    (space points parameters assembler device_interface precision : value)
  : Py bempp_api PotentialOperator :=
  let! precision := resolve_precision precision in
  let operator_descriptor :=
    mkOperatorDescriptor
      "laplace_double_layer_potential_gradient"
      []
      "laplace_double_layer_gradient"
      "laplace_double_layer_gradient"
      precision
      false
      VNone
      3 in
  ret (mkPotentialOperator
         (mkPotentialAssembler
            space points operator_descriptor device_interface assembler
            parameters)).

(** Defaults of the optional arguments, the same in the four signatures:
    [parameters=None, assembler="dense", device_interface=None,
    precision=None]. *)
Definition default_parameters : value := VNone.
Definition default_assembler : value := VStr "dense".
Definition default_device_interface : value := VNone.
Definition default_precision : value := VNone.

(** The four functions under one name, to state what they share. *)
Inductive factory : Type :=
| SingleLayer
| SingleLayerGradient
| DoubleLayer
| DoubleLayerGradient.

Definition call (f : factory)
  : value -> value -> value -> value -> value -> value ->
    Py bempp_api PotentialOperator :=
  match f with
  | SingleLayer => single_layer
  | SingleLayerGradient => single_layer_gradient
  | DoubleLayer => double_layer
  | DoubleLayerGradient => double_layer_gradient
  end.

(** [f(space, points)]: every optional argument left out. *)
Definition call_default (f : factory) (space points : value)
  : Py bempp_api PotentialOperator :=
  call f space points default_parameters default_assembler
       default_device_interface default_precision.

(** A row of the table of section 4.3 of the specification, written from
    the specification and not from the code. *)
Record table_row : Type := mkRow {
  row_identifier : string;
  row_kernel_type : string;
  row_assembly_type : string;
  row_kernel_dimension : Z;
}.

Definition spec_table (f : factory) : table_row :=
  match f with
  | SingleLayer =>
      mkRow "laplace_single_layer_potential"
            "laplace_single_layer" "default_scalar" 1
  | SingleLayerGradient =>
      mkRow "laplace_single_layer_potential_gradient"
            "laplace_single_layer_gradient"
            "laplace_single_layer_gradient" 3
  | DoubleLayer =>
      mkRow "laplace_double_layer_potential"
            "laplace_double_layer" "default_scalar" 1
  | DoubleLayerGradient =>
      mkRow "laplace_double_layer_potential_gradient"
            "laplace_double_layer_gradient"
            "laplace_double_layer_gradient" 3
  end.

(** The assembly types that name a gradient path: every one but
    ["default_scalar"]. *)
Definition names_gradient_path (assembly_type : string) : bool :=
  negb (String.eqb assembly_type "default_scalar").

End laplace.

(* ===================================================================== *)
(** ** Statements of the specification, as predicates on a call *)
(* ===================================================================== *)

(** The descriptor a factory call built, read off the assembler it
    returned. *)
Definition descriptor_of (op : laplace.PotentialOperator)
  : laplace.OperatorDescriptor :=
  laplace.pa_operator_descriptor (laplace.po_assembler op).

(** The specification's account of the [parameters] value handed to the
    assembler (sections 2 and 4.4): the configuration resolved by
    [assign_parameters], never null. *)
Definition hands_over_resolved_parameters (f : laplace.factory)
    (space points parameters assembler device_interface precision : value)
    (api : bempp_api) : Prop :=
  exists op resolved,
    laplace.call f space points parameters assembler device_interface
                 precision api = Returns op api /\
    assign_parameters parameters api = Returns resolved api /\
    laplace.pa_parameters (laplace.po_assembler op) = resolved /\
    laplace.pa_parameters (laplace.po_assembler op) <> VNone.

(** An interpreter state with the library's usual defaults: double
    precision, and a parameters object named 7. *)
Definition sample_api : bempp_api :=
  {| DEFAULT_PRECISION := VStr "double";
     GLOBAL_PARAMETERS := VObj 7;
     objects := {[ 7%nat := ∅ ]} |}.

(** The same default precision with another global parameters object. *)
Definition other_parameters_api : bempp_api :=
  {| DEFAULT_PRECISION := VStr "double";
     GLOBAL_PARAMETERS := VObj 9;
     objects := {[ 9%nat := {[ "verbosity" := VInt 1 ]} ]} |}.

(** Another default precision and another global parameters object. *)
Definition other_api : bempp_api :=
  {| DEFAULT_PRECISION := VStr "single";
     GLOBAL_PARAMETERS := VObj 9;
     objects := {[ 9%nat := {[ "verbosity" := VInt 1 ]} ]} |}.

(** The numpy order an order tag of [align_array] asks for. *)
Definition order_of_tag (order : string) : np_order :=
  if String.eqb order "F" then FORTRANORDER else CORDER.

(** Contiguity in the order an order tag asks for. *)
Definition contiguous_in {scalar} (order : string) (a : ndarray scalar)
  : bool :=
  STRIDING_OK a (order_of_tag order).

(** What [align_array] asks of an array, read off the requirement list it
    passes to [numpy.require] together with the element type: a base-class
    array (E) of that element type, contiguous in the order asked (C or F),
    aligned (A), owning its data (O). *)
Definition meets_requirements {scalar} (a : ndarray scalar)
    (dtype' : np_dtype) (order : string) : bool :=
  exact_type a && bool_decide (dtype a = dtype')
  && contiguous_in order a && ALIGNED a && OWNDATA a.

(** The guarantee of section 4.1 of the specification for the array a call
    returns: writable, aligned, contiguous in the order asked, of the
    element type asked. *)
Definition returns_normalized {scalar} (dtype' : np_dtype) (order : string)
    (o : outcome (heap scalar) addr) : Prop :=
  exists r h' a',
    o = Returns r h' /\ h' !! r = Some a' /\
    WRITEABLE a' = true /\ ALIGNED a' = true /\
    contiguous_in order a' = true /\ dtype a' = dtype'.

(** The requirements as section 4.1 of the specification lists them:
    writable, aligned, contiguous in the order asked, of the element type
    asked. *)
Definition spec_requirements {scalar} (a : ndarray scalar)
    (dtype' : np_dtype) (order : string) : bool :=
  WRITEABLE a && ALIGNED a && contiguous_in order a
  && bool_decide (dtype a = dtype').

(** The specification's account of [promote_to_double_precision] on an
    array of single precision: the array returned has the element type of
    the given name. *)
Definition promotes_to {scalar} {numpy : NumPy scalar} (name : string)
    (array : addr) (h : heap scalar) : Prop :=
  exists r h' a',
    promote_to_double_precision array h = Returns r h' /\
    h' !! r = Some a' /\
    dtype_name (dtype a') = name.

(** *** Sample arrays, with integers for elements *)

#[global] Instance sample_numpy : NumPy Z := {
  cast _ _ x := x;
  keeporder_strides shape _ size := c_strides size shape;
}.

(** A read-only vector of three float64, otherwise in order: what
    [a = numpy.zeros(3); a.flags.writeable = False] leaves. *)
Definition readonly_vector : ndarray Z :=
  mkndarray true float64 [3] [8] [0; 0; 0] true true false.

(** A 2x3 float32 matrix in C order. *)
Definition float32_matrix : ndarray Z :=
  mkndarray true float32 [2; 3] [12; 4] [1; 2; 3; 4; 5; 6] true true true.

(** A writable float64 view on the first three elements of a longer
    vector: it does not own its data. *)
Definition float64_view : ndarray Z :=
  mkndarray true float64 [3] [8] [1; 2; 3] true false true.

(** Every second element of a vector of six float64: a strided view,
    [v[::2]]. *)
Definition strided_view : ndarray Z :=
  mkndarray true float64 [3] [16] [1; 3; 5] true false true.

(** A complex64 vector and an int64 vector. *)
Definition complex64_vector : ndarray Z :=
  mkndarray true complex64 [2] [8] [1; 2] true true true.

Definition int64_vector : ndarray Z :=
  mkndarray true int64 [2] [8] [1; 2] true true true.

(** A float32 vector in the byte order that is not the machine's: what
    [numpy.zeros(2, dtype=">f4")] gives on a little-endian machine. *)
Definition swapped_float32_vector : ndarray Z :=
  mkndarray true float32_swapped [2] [4] [0; 0] true true true.

Definition swapped_heap : heap Z := <[0%nat := swapped_float32_vector]> ∅.

Definition sample_heap : heap Z :=
  <[4%nat := int64_vector]>
    (<[3%nat := complex64_vector]>
       (<[2%nat := float64_view]>
          (<[1%nat := float32_matrix]>
             (<[0%nat := readonly_vector]> ∅)))).

(** *** Further vocabulary for the array helpers *)

(** An array object as numpy builds them: one stride per axis. *)
Definition well_formed {scalar} (a : ndarray scalar) : Prop :=
  length (strides a) = length (shape a).

(** The array [align_array] allocates for an input [a] that does not meet
    the requirements: a base-class array of the element type asked, with the
    shape of [a], laid out afresh in the order asked, holding the elements of
    [a] converted; aligned, owning its data, writeable. *)
Definition normalized_copy {scalar} {numpy : NumPy scalar}
    (a : ndarray scalar) (dtype' : np_dtype) (order : string)
  : ndarray scalar :=
  mkndarray true dtype' (shape a)
    (if String.eqb order "F" then f_strides (itemsize dtype') (shape a)
     else c_strides (itemsize dtype') (shape a))
    (cast_elems (dtype a) dtype' (elems a))
    true true true.

(** The element types of single precision in the byte order of the
    machine, the ones [promote_to_double_precision] converts. *)
Definition single_precision (d : np_dtype) : bool :=
  match d with
  | float32 | complex64 => true
  | _ => false
  end.

(** The element type of double width for the two it converts, any other
    element type, those in the other byte order among them, itself. *)
Definition promoted (d : np_dtype) : np_dtype :=
  match d with
  | float32 => float64
  | complex64 => complex128
  | _ => d
  end.

(** Product of the extents of a list of axes. *)
Definition extent (dims : list Z) : Z := fold_right Z.mul 1 dims.

(** Strides of a C-order layout written axis by axis: each axis steps over
    the extent of the axes after it. *)
Fixpoint suffix_strides (size : Z) (dims : list Z) : list Z :=
  match dims with
  | [] => []
  | _ :: rest => size * extent rest :: suffix_strides size rest
  end.

(** The C-order contiguity test read from the outermost axis: every axis of
    extent other than 1 steps over the extent of the axes after it. *)
Fixpoint suffix_match (sd : Z) (axes : list (Z * Z)) : Prop :=
  match axes with
  | [] => True
  | (dim, stride) :: rest =>
      (dim = 1 \/ stride = sd * extent (map fst rest)) /\ suffix_match sd rest
  end.

(** A shape on which the two orders agree: at every axis of extent other
    than 1, the extent of the axes before it (times [before]) is the extent
    of the axes after it. *)
Fixpoint balanced (before : Z) (dims : list Z) : Prop :=
  match dims with
  | [] => True
  | dim :: rest =>
      (dim = 1 \/ extent rest = before) /\ balanced (before * dim) rest
  end.

(** Number of axes of extent other than 1. *)
Definition proper_axes (dims : list Z) : nat :=
  length (List.filter (fun dim => negb (dim =? 1)) dims).

(* ===================================================================== *)
(** ** Properties of the operator factories *)
(* ===================================================================== *)

Section Factories.

Import laplace.

(** Every factory is total and leaves the interpreter state as it was. *)
Lemma call_returns (f : factory)
    (space points parameters assembler device_interface precision : value)
    (api : bempp_api) :
  exists op,
    call f space points parameters assembler device_interface precision api
    = Returns op api.
Proof.
  destruct f, precision; cbn; eexists; reflexivity.
Qed.

Ltac run_factory f precision :=
  destruct f, precision; cbn; eexists; (split; [reflexivity |]); cbn.

(** C1. Called with the optional arguments at their defaults, each of the
    four factories builds a descriptor whose identifier, kernel type,
    assembly type and kernel dimension are those of its row in the table of
    section 4.3, with no options, not complex and no singular part. *)
Theorem default_descriptor_matches_table
    (f : factory) (space points : value) (api : bempp_api) :
  exists op,
    call_default f space points api = Returns op api /\
    identifier (descriptor_of op) = row_identifier (spec_table f) /\
    kernel_type (descriptor_of op) = row_kernel_type (spec_table f) /\
    assembly_type (descriptor_of op) = row_assembly_type (spec_table f) /\
    kernel_dimension (descriptor_of op)
      = row_kernel_dimension (spec_table f) /\
    options (descriptor_of op) = [] /\
    is_complex (descriptor_of op) = false /\
    singular_part (descriptor_of op) = VNone.
Proof.
  destruct f; cbn; eexists; (split; [reflexivity |]); cbn;
    repeat split; reflexivity.
Qed.

(** C2. Whatever the arguments, the descriptor a factory builds has kernel
    dimension 3 exactly when its assembly type names a gradient path (is
    not "default_scalar"), and kernel dimension 1 otherwise. *)
Theorem kernel_dimension_follows_assembly_type
    (f : factory)
    (space points parameters assembler device_interface precision : value)
    (api : bempp_api) :
  exists op,
    call f space points parameters assembler device_interface precision api
    = Returns op api /\
    (kernel_dimension (descriptor_of op) = 3 <->
     assembly_type (descriptor_of op) <> "default_scalar") /\
    (assembly_type (descriptor_of op) = "default_scalar" ->
     kernel_dimension (descriptor_of op) = 1) /\
    kernel_dimension (descriptor_of op)
    = (if names_gradient_path (assembly_type (descriptor_of op))
       then 3 else 1).
Proof.
  run_factory f precision;
    (split; [split; intros; (discriminate || lia || congruence) |]);
    (split; [intros; (reflexivity || discriminate) | reflexivity]).
Qed.

(** C3. The precision of the descriptor is the module default
    [DEFAULT_PRECISION] when the precision argument is None, and is the
    argument itself when one is given. *)
Theorem precision_is_resolved
    (f : factory)
    (space points parameters assembler device_interface precision : value)
    (api : bempp_api) :
  exists op,
    call f space points parameters assembler device_interface precision api
    = Returns op api /\
    (precision = VNone ->
     laplace.precision (descriptor_of op) = DEFAULT_PRECISION api) /\
    (precision <> VNone ->
     laplace.precision (descriptor_of op) = precision).
Proof.
  run_factory f precision; split; intros; congruence.
Qed.

(** C4, as the code has it.  The factory hands the [parameters] argument to
    the assembler as it received it: the caller's object when one is given
    (which is what [assign_parameters] resolves it to), and None when none
    is given. *)
Theorem parameters_forwarded_as_given
    (f : factory)
    (space points parameters assembler device_interface precision : value)
    (api : bempp_api) :
  exists op,
    call f space points parameters assembler device_interface precision api
    = Returns op api /\
    pa_parameters (po_assembler op) = parameters /\
    (parameters <> VNone ->
     assign_parameters parameters api
     = Returns (pa_parameters (po_assembler op)) api).
Proof.
  run_factory f precision;
    (split; [reflexivity |]); intros Hne; destruct parameters;
    solve [reflexivity | contradiction].
Qed.

(** C10. Two runs of a factory on the same arguments return the same
    operator (descriptor and every assembler argument) whenever the two
    interpreter states agree on [DEFAULT_PRECISION], however they differ in
    [GLOBAL_PARAMETERS] and in the objects behind it; and when a precision
    is given, whatever the two states are. *)
Theorem result_independent_of_globals
    (f : factory)
    (space points parameters assembler device_interface precision : value)
    (api1 api2 : bempp_api) :
  (DEFAULT_PRECISION api1 = DEFAULT_PRECISION api2 ->
   returned (call f space points parameters assembler device_interface
                  precision api1)
   = returned (call f space points parameters assembler device_interface
                    precision api2)) /\
  (precision <> VNone ->
   returned (call f space points parameters assembler device_interface
                  precision api1)
   = returned (call f space points parameters assembler device_interface
                    precision api2)).
Proof.
  split.
  - intros Hprec; destruct f, precision; cbn; rewrite ?Hprec; reflexivity.
  - intros Hne; destruct f, precision; cbn;
      solve [reflexivity | contradiction].
Qed.

End Factories.

(** C9. [assign_parameters(None)] returns the global parameters object
    itself, [assign_parameters(p)] returns [p] for any other [p]; either
    way the interpreter state, objects included, is left as it was. *)
Theorem assign_parameters_selects (parameters : value) (api : bempp_api) :
  (parameters = VNone ->
   assign_parameters parameters api = Returns (GLOBAL_PARAMETERS api) api) /\
  (parameters <> VNone ->
   assign_parameters parameters api = Returns parameters api).
Proof.
  split.
  - intros ->. reflexivity.
  - intros Hne. destruct parameters; solve [reflexivity | contradiction].
Qed.

(* ===================================================================== *)
(** ** Strides of new arrays are contiguous *)
(* ===================================================================== *)

Lemma fill_strides_length (dims : list Z) :
  forall sd, length (fill_strides sd dims) = length dims.
Proof.
  induction dims as [| dim rest IH]; intros sd; simpl;
    [reflexivity | now rewrite IH].
Qed.

Lemma has_empty_axis_cons (dim : Z) (rest : list Z) :
  has_empty_axis (dim :: rest) = false ->
  dim <> 0 /\ has_empty_axis rest = false.
Proof.
  unfold has_empty_axis; simpl. intros H.
  apply orb_false_iff in H as [Hd Hr]. split; [lia | exact Hr].
Qed.

Lemma has_empty_axis_app (l1 l2 : list Z) :
  has_empty_axis (l1 ++ l2)%list = has_empty_axis l1 || has_empty_axis l2.
Proof. unfold has_empty_axis. apply existsb_app. Qed.

Lemma has_empty_axis_rev (dims : list Z) :
  has_empty_axis (rev dims) = has_empty_axis dims.
Proof.
  induction dims as [| dim rest IH]; [reflexivity |].
  simpl rev. rewrite has_empty_axis_app, IH.
  change (has_empty_axis (dim :: rest))
    with ((dim =? 0) || has_empty_axis rest).
  unfold has_empty_axis at 2; simpl.
  rewrite orb_false_r. apply orb_comm.
Qed.

(** The strides [fill_strides] gives pass the contiguity test, on a shape
    with no axis of extent 0. *)
Lemma strides_match_fill (dims : list Z) :
  forall sd,
    has_empty_axis dims = false ->
    strides_match sd (combine dims (fill_strides sd dims)) = true.
Proof.
  induction dims as [| dim rest IH]; intros sd Hne; [reflexivity |].
  apply has_empty_axis_cons in Hne as [Hd Hr].
  simpl. destruct (Z.eqb_spec dim 0) as [-> | _]; [contradiction |].
  destruct (Z.eqb_spec dim 1) as [-> | _].
  - rewrite Z.mul_1_r. now apply IH.
  - rewrite Z.eqb_refl. simpl. now apply IH.
Qed.

Lemma combine_snoc {A B} (l1 : list A) (l2 : list B) (x : A) (y : B) :
  length l1 = length l2 ->
  combine (l1 ++ [x])%list (l2 ++ [y])%list
  = (combine l1 l2 ++ [(x, y)])%list.
Proof.
  revert l2. induction l1 as [| a l1 IH]; intros [| b l2] Hlen;
    simpl in *; try discriminate; [reflexivity |].
  f_equal. apply IH. congruence.
Qed.

Lemma rev_combine {A B} (l1 : list A) (l2 : list B) :
  length l1 = length l2 ->
  rev (combine l1 l2) = combine (rev l1) (rev l2).
Proof.
  revert l2. induction l1 as [| a l1 IH]; intros [| b l2] Hlen;
    simpl in *; try discriminate; [reflexivity |].
  rewrite combine_snoc by (rewrite !length_rev; congruence).
  f_equal. apply IH. congruence.
Qed.

Lemma c_strides_contiguous (size : Z) (shape : list Z) :
  has_empty_axis shape
  || strides_match size (rev (combine shape (c_strides size shape))) = true.
Proof.
  destruct (has_empty_axis shape) eqn:Hne; [reflexivity |]. simpl.
  unfold c_strides.
  rewrite rev_combine
    by (rewrite length_rev, fill_strides_length, length_rev; reflexivity).
  rewrite rev_involutive.
  apply strides_match_fill. now rewrite has_empty_axis_rev.
Qed.

Lemma f_strides_contiguous (size : Z) (shape : list Z) :
  has_empty_axis shape
  || strides_match size (combine shape (f_strides size shape)) = true.
Proof.
  destruct (has_empty_axis shape) eqn:Hne; [reflexivity |]. simpl.
  now apply strides_match_fill.
Qed.

Section ArrayProperties.

Context {scalar : Type} {numpy : NumPy scalar}.
Implicit Types (h : heap scalar) (a : ndarray scalar) (arr : addr).

Lemma deref_Some h arr a : h !! arr = Some a -> deref arr h = Returns a h.
Proof. intros H. unfold deref. now rewrite H. Qed.

Lemma fresh_unused h : h !! fresh (dom h) = None.
Proof. unfold heap in *. apply not_elem_of_dom. apply is_fresh. Qed.

Lemma lookup_alloc_new h a :
  <[fresh (dom h) := a]> h !! fresh (dom h) = Some a.
Proof. unfold heap in *. apply lookup_insert_eq. Qed.

Lemma lookup_alloc_old h arr a x :
  h !! arr = Some x -> <[fresh (dom h) := a]> h !! arr = Some x.
Proof.
  intros H. unfold heap in *. rewrite lookup_insert_ne; [exact H |].
  intros E. rewrite <- E, fresh_unused in H. discriminate.
Qed.

Lemma lookup_alloc_None h r a :
  <[fresh (dom h) := a]> h !! r = None -> h !! r = None.
Proof.
  unfold heap in *. intros H.
  destruct (decide (fresh (dom h) = r)) as [<- | Hne].
  - apply fresh_unused.
  - now rewrite lookup_insert_ne in H.
Qed.

(** A copy in the order of an order tag is contiguous in that order. *)
Lemma new_copy_contiguous a order dt sub :
  contiguous_in order (new_copy a (order_of_tag order) dt sub) = true.
Proof.
  unfold contiguous_in, order_of_tag.
  destruct (String.eqb order "F"); simpl.
  - apply f_strides_contiguous.
  - apply c_strides_contiguous.
Qed.

(** A base-class copy meets every requirement of [align_array]. *)
Lemma new_copy_meets_requirements a order dt sub :
  exact_type (new_copy a (order_of_tag order) dt sub) = true ->
  meets_requirements (new_copy a (order_of_tag order) dt sub) dt order
  = true.
Proof.
  intros He. unfold meets_requirements.
  rewrite He, new_copy_contiguous. simpl.
  now rewrite bool_decide_eq_true_2.
Qed.

(** The two ways a call of [align_array] with a valid order tag ends: on
    an array that meets the requirements it returns the array and leaves the
    store alone; on any other it returns a newly allocated base-class copy
    in the order asked, and the array is still in the store. *)
Lemma align_array_cases arr dt order h a :
  h !! arr = Some a ->
  order = "C" \/ order = "F" ->
  (meets_requirements a dt order = true /\
   align_array arr dt order h = Returns arr h) \/
  (meets_requirements a dt order = false /\
   exists r h' src sub,
     align_array arr dt order h = Returns r h' /\
     h !! r = None /\
     h' !! r = Some (new_copy src (order_of_tag order) dt sub) /\
     exact_type (new_copy src (order_of_tag order) dt sub) = true /\
     h' !! arr = Some a).
Proof.
  intros Harr Horder.
  assert (Hrun : align_array arr dt order h
                 = require arr (Some dt)
                     ["A"; (if String.eqb order "F" then "F" else "C");
                      "O"; "E"] h).
  { destruct Horder as [-> | ->]; reflexivity. }
  rewrite Hrun; clear Hrun.
  assert (Hreq : require arr (Some dt)
                   ["A"; (if String.eqb order "F" then "F" else "C");
                    "O"; "E"] h
                 = (let! arr' := np_array arr (Some dt) (order_of_tag order)
                                          false in
                    let! a' := deref arr' in
                    if ALIGNED a' && OWNDATA a' then ret arr'
                    else ndarray_copy arr' (order_of_tag order)) h).
  { unfold order_of_tag.
    destruct Horder as [-> | ->]; unfold require, bind; simpl;
      destruct (np_array _ _ _ _ h) as [arr' h1 |]; try reflexivity;
      destruct (deref arr' h1) as [a' h2 |]; try reflexivity;
      now rewrite andb_true_r. }
  rewrite Hreq; clear Hreq.
  unfold meets_requirements, contiguous_in.
  generalize (order_of_tag order) as ord; intros ord.
  unfold np_array, bind. rewrite (deref_Some _ _ _ Harr). simpl default.
  destruct (decide (dt = dtype a)) as [-> | Hdt].
  - rewrite !bool_decide_eq_true_2 by reflexivity. simpl.
    destruct (STRIDING_OK a ord) eqn:Hs; simpl.
    + destruct (exact_type a) eqn:He; simpl.
      * unfold ret at 1. rewrite (deref_Some _ _ _ Harr).
        destruct (ALIGNED a && OWNDATA a) eqn:Hflags.
        -- left. split; reflexivity.
        -- right. split; [reflexivity |].
           unfold ndarray_copy, bind. rewrite (deref_Some _ _ _ Harr).
           eexists _, _, a, true.
           repeat split.
           ++ apply fresh_unused.
           ++ apply lookup_alloc_new.
           ++ exact He.
           ++ now apply lookup_alloc_old.
      * right. split; [reflexivity |].
        rewrite (deref_Some _ _ _ (lookup_alloc_new h (base_view a))).
        simpl OWNDATA. rewrite andb_false_r.
        unfold ndarray_copy, bind.
        rewrite (deref_Some _ _ _ (lookup_alloc_new h (base_view a))).
        unfold alloc.
        eexists _, _, (base_view a), true.
        repeat split.
        -- eapply lookup_alloc_None. apply fresh_unused.
        -- apply lookup_alloc_new.
        -- now do 2 apply lookup_alloc_old.
    + right. split; [now rewrite andb_false_r |].
        rewrite (deref_Some _ _ _ (lookup_alloc_new h _)). simpl.
      eexists _, _, a, false. repeat split.
      * apply fresh_unused.
      * apply lookup_alloc_new.
      * now apply lookup_alloc_old.
  - rewrite (bool_decide_eq_false_2 (dt = dtype a)) by exact Hdt.
    rewrite (bool_decide_eq_false_2 (dtype a = dt)) by congruence.
    simpl. right. split; [now rewrite andb_false_r |].
    rewrite (deref_Some _ _ _ (lookup_alloc_new h _)). simpl.
    eexists _, _, a, false. repeat split.
    + apply fresh_unused.
    + apply lookup_alloc_new.
    + now apply lookup_alloc_old.
Qed.

(** C5. Whatever the array and the element type, an order tag other than
    "C" and "F" makes [align_array] raise the ValueError of its last
    branch; with "C" or "F" the call returns. *)
Theorem align_array_checks_order arr dt order h :
  (order <> "C" -> order <> "F" ->
   align_array arr dt order h
   = Raises (ValueError "order must be one of 'C' or 'F'.")) /\
  (order = "C" \/ order = "F" ->
   forall a, h !! arr = Some a ->
   exists r h', align_array arr dt order h = Returns r h').
Proof.
  split.
  - intros HC HF. unfold align_array, bind.
    destruct (String.eqb_spec order "F") as [-> | _]; [contradiction |].
    destruct (String.eqb_spec order "C") as [-> | _]; [contradiction |].
    reflexivity.
  - intros Horder a Harr.
    destruct (align_array_cases arr dt order h a Harr Horder)
      as [[_ Hrun] | [_ (r & h' & _ & _ & Hrun & _)]]; eauto.
Qed.

(** C6, as the code has it.  With an order tag "C" or "F" the array
    [align_array] returns is aligned, contiguous in the order asked, of the
    element type asked, owns its data and is a base-class array; it is
    writeable when the input is writeable or when it is not the input
    itself. *)
Theorem align_array_normalizes arr dt order h a :
  h !! arr = Some a ->
  order = "C" \/ order = "F" ->
  exists r h' a',
    align_array arr dt order h = Returns r h' /\
    h' !! r = Some a' /\
    ALIGNED a' = true /\
    contiguous_in order a' = true /\
    dtype a' = dt /\
    OWNDATA a' = true /\
    exact_type a' = true /\
    (WRITEABLE a = true \/ r <> arr -> WRITEABLE a' = true).
Proof.
  intros Harr Horder.
  destruct (align_array_cases arr dt order h a Harr Horder)
    as [[Hmeets Hrun] | [_ (r & h' & src & sub & Hrun & _ & Hr & He & _)]].
  - exists arr, h, a. unfold meets_requirements in Hmeets.
    apply andb_true_iff in Hmeets as [Hmeets Hown].
    apply andb_true_iff in Hmeets as [Hmeets Haligned].
    apply andb_true_iff in Hmeets as [Hmeets Hcontiguous].
    apply andb_true_iff in Hmeets as [Hexact Hdtype].
    apply bool_decide_eq_true_1 in Hdtype.
    repeat split; try assumption.
    intros [Hw | Hne]; [exact Hw | contradiction].
  - exists r, h', (new_copy src (order_of_tag order) dt sub).
    repeat split; try assumption. apply new_copy_contiguous.
Qed.

(** C7, as the code has it.  The requirements are those of the list the
    code passes to [numpy.require]: an array that already is a base-class
    array of the element type asked, contiguous in the order asked, aligned
    and owning its data is returned as it is, the store untouched (no
    copy); and [align_array] is idempotent: called again on its own result
    with the same element type and order, it returns that same array object
    and leaves the store as the first call left it. *)
Theorem align_array_no_copy_and_idempotent arr dt order h a :
  h !! arr = Some a ->
  order = "C" \/ order = "F" ->
  (meets_requirements a dt order = true ->
   align_array arr dt order h = Returns arr h) /\
  (exists r h',
     align_array arr dt order h = Returns r h' /\
     align_array r dt order h' = Returns r h').
Proof.
  intros Harr Horder.
  destruct (align_array_cases arr dt order h a Harr Horder)
    as [[Hmeets Hrun] | [Hmeets (r & h' & src & sub & Hrun & _ & Hr & He & _)]].
  - split; [intros _; exact Hrun |].
    exists arr, h. split; exact Hrun.
  - split; [intros Habs; congruence |].
    exists r, h'. split; [exact Hrun |].
    destruct (align_array_cases r dt order h' _ Hr Horder)
      as [[_ Hagain] | [Hnot _]]; [exact Hagain |].
    rewrite (new_copy_meets_requirements _ _ _ _ He) in Hnot.
    discriminate.
Qed.

(** [astype] to another element type allocates the converted array and
    keeps the source. *)
Lemma astype_converts arr h a name dt :
  h !! arr = Some a ->
  dtype_of_name name = Some dt ->
  dt <> dtype a ->
  exists r h',
    astype arr name false h = Returns r h' /\
    h !! r = None /\
    h' !! r = Some (new_copy a KEEPORDER dt true) /\
    h' !! arr = Some a.
Proof.
  intros Harr Hname Hdt. unfold astype, bind.
  rewrite (deref_Some _ _ _ Harr), Hname.
  rewrite bool_decide_eq_false_2 by exact Hdt. simpl.
  eexists _, _. repeat split.
  - apply fresh_unused.
  - apply lookup_alloc_new.
  - now apply lookup_alloc_old.
Qed.

(** [promote_to_double_precision] by the element type of its argument. *)
Lemma promote_unfold array h a :
  h !! array = Some a ->
  promote_to_double_precision array h
  = if dtype_eq_name (dtype a) "float32" then
      astype array "float64" false h
    else if dtype_eq_name (dtype a) "complex64" then
      astype array "complex128" false h
    else Returns array h.
Proof.
  intros Harr. unfold promote_to_double_precision, dtype_is, bind.
  rewrite (deref_Some _ _ _ Harr). unfold ret at 1.
  destruct (dtype_eq_name (dtype a) "float32"); [reflexivity |].
  rewrite (deref_Some _ _ _ Harr). unfold ret at 1.
  destruct (dtype_eq_name (dtype a) "complex64"); reflexivity.
Qed.

(** On an array of any element type but float32 and complex64,
    [promote_to_double_precision] returns its argument. *)
Lemma promote_passes_through array h a :
  h !! array = Some a ->
  dtype a <> float32 ->
  dtype a <> complex64 ->
  promote_to_double_precision array h = Returns array h.
Proof.
  intros Harr H32 H64. rewrite (promote_unfold _ _ _ Harr).
  destruct (dtype a); try contradiction; reflexivity.
Qed.

(** C8, as the code has it.  [promote_to_double_precision] turns a float32
    array in the byte order of the machine into a float64 array and such a
    complex64 array into a complex128 array, each of the same shape and
    with the elements converted; it returns any other array as it is: one
    of another element type, and one in the other byte order, single
    precision included; and applied to its own result it returns that
    result. *)
Theorem promote_to_double_precision_promotes array h a :
  h !! array = Some a ->
  (dtype a = float32 ->
   exists r h' a',
     promote_to_double_precision array h = Returns r h' /\
     h' !! r = Some a' /\ dtype a' = float64 /\ shape a' = shape a /\
     elems a' = map (cast float32 float64) (elems a)) /\
  (dtype a = complex64 ->
   exists r h' a',
     promote_to_double_precision array h = Returns r h' /\
     h' !! r = Some a' /\ dtype a' = complex128 /\ shape a' = shape a /\
     elems a' = map (cast complex64 complex128) (elems a)) /\
  (dtype a <> float32 -> dtype a <> complex64 ->
   promote_to_double_precision array h = Returns array h) /\
  (native_byte_order (dtype a) = false ->
   promote_to_double_precision array h = Returns array h) /\
  (exists r h',
     promote_to_double_precision array h = Returns r h' /\
     promote_to_double_precision r h' = Returns r h').
Proof.
  intros Harr.
  assert (H32 : dtype a = float32 ->
                exists r h',
                  promote_to_double_precision array h = Returns r h' /\
                  h' !! r = Some (new_copy a KEEPORDER float64 true)).
  { intros Hd.
    destruct (astype_converts array h a "float64" float64 Harr eq_refl)
      as (r & h' & Hrun & _ & Hr & _); [congruence |].
    exists r, h'. split; [| exact Hr].
    rewrite (promote_unfold _ _ _ Harr), Hd. exact Hrun. }
  assert (H64 : dtype a = complex64 ->
                exists r h',
                  promote_to_double_precision array h = Returns r h' /\
                  h' !! r = Some (new_copy a KEEPORDER complex128 true)).
  { intros Hd.
    destruct (astype_converts array h a "complex128" complex128 Harr eq_refl)
      as (r & h' & Hrun & _ & Hr & _); [congruence |].
    exists r, h'. split; [| exact Hr].
    rewrite (promote_unfold _ _ _ Harr), Hd. exact Hrun. }
  repeat split.
  - intros Hd. destruct (H32 Hd) as (r & h' & Hrun & Hr).
    exists r, h', (new_copy a KEEPORDER float64 true).
    repeat split; try assumption.
    simpl. unfold cast_elems. rewrite Hd. reflexivity.
  - intros Hd. destruct (H64 Hd) as (r & h' & Hrun & Hr).
    exists r, h', (new_copy a KEEPORDER complex128 true).
    repeat split; try assumption.
    simpl. unfold cast_elems. rewrite Hd. reflexivity.
  - now apply (promote_passes_through _ _ a).
  - intros Hswapped. apply (promote_passes_through _ _ a Harr);
      intros Heq; rewrite Heq in Hswapped; discriminate Hswapped.
  - destruct (decide (dtype a = float32)) as [Hd | Hn32].
    { destruct (H32 Hd) as (r & h' & Hrun & Hr).
      exists r, h'. split; [exact Hrun |].
      apply (promote_passes_through r h' _ Hr); discriminate. }
    destruct (decide (dtype a = complex64)) as [Hd | Hn64].
    { destruct (H64 Hd) as (r & h' & Hrun & Hr).
      exists r, h'. split; [exact Hrun |].
      apply (promote_passes_through r h' _ Hr); discriminate. }
    exists array, h. split; now apply (promote_passes_through _ _ a).
Qed.

End ArrayProperties.

(* ===================================================================== *)
(** ** The statements at concrete calls *)
(* ===================================================================== *)

(** The 2x3 float32 matrix in C order is not in Fortran order;
    [align_array(m, float64, "F")] allocates the float64 matrix with
    column-major strides. *)
Example float32_matrix_layout :
  C_CONTIGUOUS float32_matrix = true /\ F_CONTIGUOUS float32_matrix = false.
Proof. split; reflexivity. Qed.

Example align_array_float32_matrix_F :
  exists h',
    align_array 1%nat float64 "F" sample_heap = Returns 5%nat h' /\
    h' !! 5%nat
    = Some (mkndarray true float64 [2; 3] [8; 16] [1; 2; 3; 4; 5; 6]
                      true true true).
Proof. eexists. split; vm_compute; reflexivity. Qed.

(** A strided view is contiguous in neither order. *)
Example strided_view_layout :
  C_CONTIGUOUS strided_view = false /\ F_CONTIGUOUS strided_view = false.
Proof. split; reflexivity. Qed.

Example promote_complex64_vector :
  exists h',
    promote_to_double_precision 3%nat sample_heap = Returns 5%nat h' /\
    h' !! 5%nat
    = Some (mkndarray true complex128 [2] [16] [1; 2] true true true).
Proof. eexists. split; vm_compute; reflexivity. Qed.

Example promote_int64_vector :
  promote_to_double_precision 4%nat sample_heap = Returns 4%nat sample_heap.
Proof. vm_compute. reflexivity. Qed.

(** C4 as the specification states it fails on [single_layer(space,
    points)]: the assembler receives None, where [assign_parameters]
    resolves None to the global parameters object. *)
Lemma parameters_not_resolved_counterexample :
  returned (laplace.call_default laplace.SingleLayer (VObj 1) (VObj 2)
              sample_api)
  = Some (laplace.mkPotentialOperator
            (laplace.mkPotentialAssembler
               (VObj 1) (VObj 2)
               (laplace.mkOperatorDescriptor
                  "laplace_single_layer_potential" []
                  "laplace_single_layer" "default_scalar"
                  (VStr "double") false VNone 1)
               VNone (VStr "dense") VNone)) /\
  assign_parameters VNone sample_api = Returns (VObj 7) sample_api /\
  ~ hands_over_resolved_parameters laplace.SingleLayer (VObj 1) (VObj 2)
      laplace.default_parameters laplace.default_assembler
      laplace.default_device_interface laplace.default_precision sample_api.
Proof.
  split; [reflexivity |]. split; [reflexivity |].
  intros (op & resolved & Hrun & _ & _ & Hnot_none).
  cbn in Hrun. injection Hrun as <-.
  apply Hnot_none. reflexivity.
Qed.

Lemma parameters_forwarded_as_given_witness :
  VObj 5 <> VNone /\
  exists op,
    laplace.call laplace.DoubleLayer (VObj 1) (VObj 2) (VObj 5)
                 (VStr "fmm") VNone VNone sample_api
    = Returns op sample_api /\
    laplace.pa_parameters (laplace.po_assembler op) = VObj 5 /\
    assign_parameters (VObj 5) sample_api
    = Returns (laplace.pa_parameters (laplace.po_assembler op)) sample_api.
Proof.
  split; [discriminate |].
  destruct (parameters_forwarded_as_given laplace.DoubleLayer
              (VObj 1) (VObj 2) (VObj 5) (VStr "fmm") VNone VNone sample_api)
    as (op & Hrun & Hfwd & Hres).
  exists op. split; [exact Hrun |]. split; [exact Hfwd |].
  apply Hres. discriminate.
Defined.

Lemma kernel_dimension_follows_assembly_type_witness :
  exists op,
    laplace.call laplace.SingleLayerGradient (VObj 1) (VObj 2) VNone
                 (VStr "dense") VNone VNone sample_api
    = Returns op sample_api /\
    laplace.assembly_type (descriptor_of op) <> "default_scalar" /\
    laplace.kernel_dimension (descriptor_of op) = 3.
Proof.
  destruct (kernel_dimension_follows_assembly_type
              laplace.SingleLayerGradient (VObj 1) (VObj 2) VNone
              (VStr "dense") VNone VNone sample_api)
    as (op & Hrun & Hiff & _ & Hdim).
  exists op. split; [exact Hrun |].
  cbn in Hrun. injection Hrun as <-.
  split; [discriminate |]. apply Hiff. discriminate.
Defined.

Lemma precision_is_resolved_witness :
  (exists op,
     laplace.call laplace.SingleLayer (VObj 1) (VObj 2) VNone (VStr "dense")
                  VNone VNone sample_api
     = Returns op sample_api /\
     laplace.precision (descriptor_of op) = VStr "double") /\
  (exists op,
     laplace.call laplace.DoubleLayerGradient (VObj 1) (VObj 2) VNone
                  (VStr "dense") VNone (VStr "single") sample_api
     = Returns op sample_api /\
     laplace.precision (descriptor_of op) = VStr "single").
Proof.
  split.
  - destruct (precision_is_resolved laplace.SingleLayer (VObj 1) (VObj 2)
                VNone (VStr "dense") VNone VNone sample_api)
      as (op & Hrun & Hnone & _).
    exists op. split; [exact Hrun |]. apply Hnone. reflexivity.
  - destruct (precision_is_resolved laplace.DoubleLayerGradient
                (VObj 1) (VObj 2) VNone (VStr "dense") VNone (VStr "single")
                sample_api)
      as (op & Hrun & _ & Hgiven).
    exists op. split; [exact Hrun |]. apply Hgiven. discriminate.
Defined.

Lemma result_independent_of_globals_witness :
  returned (laplace.call laplace.SingleLayer (VObj 1) (VObj 2) VNone
              (VStr "dense") VNone VNone sample_api)
  = returned (laplace.call laplace.SingleLayer (VObj 1) (VObj 2) VNone
                (VStr "dense") VNone VNone other_parameters_api) /\
  returned (laplace.call laplace.DoubleLayerGradient (VObj 1) (VObj 2) VNone
              (VStr "dense") VNone (VStr "single") sample_api)
  = returned (laplace.call laplace.DoubleLayerGradient (VObj 1) (VObj 2)
                VNone (VStr "dense") VNone (VStr "single") other_api).
Proof.
  split.
  - apply (proj1 (result_independent_of_globals laplace.SingleLayer
                    (VObj 1) (VObj 2) VNone (VStr "dense") VNone VNone
                    sample_api other_parameters_api)).
    reflexivity.
  - apply (proj2 (result_independent_of_globals laplace.DoubleLayerGradient
                    (VObj 1) (VObj 2) VNone (VStr "dense") VNone
                    (VStr "single") sample_api other_api)).
    discriminate.
Defined.

Lemma assign_parameters_selects_witness :
  assign_parameters VNone sample_api = Returns (VObj 7) sample_api /\
  assign_parameters (VObj 3) sample_api = Returns (VObj 3) sample_api.
Proof.
  split.
  - apply (proj1 (assign_parameters_selects VNone sample_api)). reflexivity.
  - apply (proj2 (assign_parameters_selects (VObj 3) sample_api)).
    discriminate.
Defined.

(** C6 as the specification states it fails on a read-only array that is
    otherwise in order: [align_array] returns that very array, still
    read-only. *)
Lemma align_array_keeps_readonly_counterexample :
  sample_heap !! 0%nat = Some readonly_vector /\
  align_array 0%nat float64 "C" sample_heap = Returns 0%nat sample_heap /\
  WRITEABLE readonly_vector = false /\
  ~ returns_normalized float64 "C"
      (align_array 0%nat float64 "C" sample_heap).
Proof.
  assert (Hrun : align_array 0%nat float64 "C" sample_heap
                 = Returns 0%nat sample_heap)
    by (vm_compute; reflexivity).
  assert (Hlook : sample_heap !! 0%nat = Some readonly_vector)
    by (vm_compute; reflexivity).
  repeat split; try assumption.
  intros (r & h' & a' & Hret & Hr & Hw & _).
  rewrite Hrun in Hret. injection Hret as <- <-.
  assert (Ha' : a' = readonly_vector) by congruence.
  rewrite Ha' in Hw. discriminate Hw.
Qed.

Lemma align_array_checks_order_witness :
  align_array 1%nat float64 "K" sample_heap
  = Raises (ValueError "order must be one of 'C' or 'F'.") /\
  exists r h', align_array 1%nat float64 "F" sample_heap = Returns r h'.
Proof.
  split.
  - apply (proj1 (align_array_checks_order 1%nat float64 "K" sample_heap));
      discriminate.
  - apply (proj2 (align_array_checks_order 1%nat float64 "F" sample_heap)
             (or_intror eq_refl) float32_matrix).
    vm_compute. reflexivity.
Defined.

Lemma align_array_normalizes_witness :
  sample_heap !! 1%nat = Some float32_matrix /\
  exists r h' a',
    align_array 1%nat float64 "F" sample_heap = Returns r h' /\
    h' !! r = Some a' /\
    ALIGNED a' = true /\
    contiguous_in "F" a' = true /\
    dtype a' = float64 /\
    OWNDATA a' = true /\
    exact_type a' = true /\
    (WRITEABLE float32_matrix = true \/ r <> 1%nat -> WRITEABLE a' = true).
Proof.
  assert (Hlook : sample_heap !! 1%nat = Some float32_matrix)
    by (vm_compute; reflexivity).
  split; [exact Hlook |].
  exact (align_array_normalizes 1%nat float64 "F" sample_heap float32_matrix
           Hlook (or_intror eq_refl)).
Defined.

Lemma align_array_no_copy_and_idempotent_witness :
  sample_heap !! 4%nat = Some int64_vector /\
  meets_requirements int64_vector int64 "C" = true /\
  align_array 4%nat int64 "C" sample_heap = Returns 4%nat sample_heap /\
  exists r h',
    align_array 4%nat int64 "C" sample_heap = Returns r h' /\
    align_array r int64 "C" h' = Returns r h'.
Proof.
  assert (Hlook : sample_heap !! 4%nat = Some int64_vector)
    by (vm_compute; reflexivity).
  split; [exact Hlook |]. split; [reflexivity |].
  destruct (align_array_no_copy_and_idempotent 4%nat int64 "C" sample_heap
              int64_vector Hlook (or_introl eq_refl))
    as [Hsame Hidem].
  split; [apply Hsame; reflexivity | exact Hidem].
Defined.

(** C7 as the specification states it fails on a view: writable, aligned,
    contiguous and of the element type asked, it meets the requirements
    the specification lists, but it does not own its data, and
    [align_array] returns a copy under a new name. *)
Lemma align_array_copies_view_counterexample :
  sample_heap !! 2%nat = Some float64_view /\
  spec_requirements float64_view float64 "C" = true /\
  returned (align_array 2%nat float64 "C" sample_heap) = Some 5%nat /\
  ~ (spec_requirements float64_view float64 "C" = true ->
     align_array 2%nat float64 "C" sample_heap = Returns 2%nat sample_heap).
Proof.
  assert (Hrun : returned (align_array 2%nat float64 "C" sample_heap)
                 = Some 5%nat)
    by (vm_compute; reflexivity).
  split; [vm_compute; reflexivity |].
  split; [reflexivity |].
  split; [exact Hrun |].
  intros Hclaim. rewrite (Hclaim eq_refl) in Hrun. discriminate Hrun.
Qed.

(** C8 as the specification states it fails on a float32 array in the byte
    order that is not the machine's: its element type does not compare
    equal to "float32", and the array is returned as it is, still of single
    precision. *)
Lemma promote_skips_swapped_counterexample :
  swapped_heap !! 0%nat = Some swapped_float32_vector /\
  dtype_name (dtype swapped_float32_vector) = "float32" /\
  promote_to_double_precision 0%nat swapped_heap
  = Returns 0%nat swapped_heap /\
  ~ promotes_to "float64" 0%nat swapped_heap.
Proof.
  assert (Hlook : swapped_heap !! 0%nat = Some swapped_float32_vector)
    by (vm_compute; reflexivity).
  assert (Hrun : promote_to_double_precision 0%nat swapped_heap
                 = Returns 0%nat swapped_heap)
    by (vm_compute; reflexivity).
  repeat split; try assumption.
  intros (r & h' & a' & Hret & Hr & Hname).
  rewrite Hrun in Hret. injection Hret as <- <-.
  assert (Ha' : a' = swapped_float32_vector) by congruence.
  rewrite Ha' in Hname. discriminate Hname.
Qed.

Lemma promote_to_double_precision_promotes_witness :
  sample_heap !! 1%nat = Some float32_matrix /\
  dtype float32_matrix = float32 /\
  exists r h' a',
    promote_to_double_precision 1%nat sample_heap = Returns r h' /\
    h' !! r = Some a' /\ dtype a' = float64 /\
    shape a' = shape float32_matrix /\
    elems a' = map (cast float32 float64) (elems float32_matrix).
Proof.
  assert (Hlook : sample_heap !! 1%nat = Some float32_matrix)
    by (vm_compute; reflexivity).
  split; [exact Hlook |]. split; [reflexivity |].
  apply (proj1 (promote_to_double_precision_promotes 1%nat sample_heap
                  float32_matrix Hlook)).
  reflexivity.
Defined.

(* ===================================================================== *)
(** ** When an array is contiguous in both orders *)
(* ===================================================================== *)

Lemma itemsize_positive (d : np_dtype) : 0 < itemsize d.
Proof. destruct d; reflexivity. Qed.

Lemma extent_app (l1 l2 : list Z) :
  extent (l1 ++ l2)%list = extent l1 * extent l2.
Proof.
  induction l1 as [| d l1 IH]; simpl.
  - now destruct (extent l2).
  - change (extent (d :: (l1 ++ l2)%list)) with (d * extent (l1 ++ l2)%list).
    change (extent (d :: l1)) with (d * extent l1).
    rewrite IH. apply Z.mul_assoc.
Qed.

Lemma extent_rev (l : list Z) : extent (rev l) = extent l.
Proof.
  induction l as [| d l IH]; [reflexivity |].
  simpl rev. rewrite extent_app, IH.
  change (extent (d :: l)) with (d * extent l).
  change (extent [d]) with (d * 1). lia.
Qed.

(** The contiguity test on a list of axes followed by one more. *)
Lemma strides_match_snoc (l : list (Z * Z)) (d t : Z) :
  forall sd,
    strides_match sd (l ++ [(d, t)])%list
    = strides_match sd l && ((d =? 1) || (t =? sd * extent (map fst l))).
Proof.
  induction l as [| [d0 t0] l IH]; intros sd.
  - simpl. rewrite Z.mul_1_r.
    destruct (d =? 1); [reflexivity | now rewrite andb_true_r].
  - simpl app. simpl strides_match. simpl map.
    change (extent (d0 :: map fst l)) with (d0 * extent (map fst l)).
    destruct (Z.eqb_spec d0 1) as [-> | _].
    + rewrite IH, Z.mul_1_l. reflexivity.
    + rewrite IH, Z.mul_assoc, andb_assoc. reflexivity.
Qed.

(** The C-order test, which walks the axes from the last, read from the
    first. *)
Lemma strides_match_rev (axes : list (Z * Z)) (sd : Z) :
  strides_match sd (rev axes) = true <-> suffix_match sd axes.
Proof.
  induction axes as [| [d t] rest IH]; simpl.
  - tauto.
  - rewrite strides_match_snoc, andb_true_iff, orb_true_iff, IH.
    rewrite map_rev, extent_rev, !Z.eqb_eq. tauto.
Qed.

(** Axes that pass the test in both orders have a balanced shape. *)
Lemma both_balanced (axes : list (Z * Z)) (sd : Z) :
  sd <> 0 ->
  forall before,
    strides_match (sd * before) axes = true ->
    suffix_match sd axes ->
    balanced before (map fst axes).
Proof.
  intros Hsd. induction axes as [| [d t] rest IH]; intros before HF HC.
  - exact I.
  - simpl in HF, HC |- *. destruct HC as [Hhere HC].
    destruct (Z.eqb_spec d 1) as [-> | Hd].
    + split; [now left |]. rewrite Z.mul_1_r. now apply IH.
    + apply andb_true_iff in HF as [Ht HF]. apply Z.eqb_eq in Ht.
      destruct Hhere as [? | Ht']; [contradiction |].
      split.
      * right. apply (Z.mul_reg_l _ _ sd Hsd). congruence.
      * apply IH; [| exact HC]. now rewrite Z.mul_assoc.
Qed.

Lemma fill_strides_snoc (l : list Z) (d : Z) :
  forall sd,
    has_empty_axis l = false ->
    fill_strides sd (l ++ [d])%list
    = (fill_strides sd l ++ [sd * extent l])%list.
Proof.
  induction l as [| d0 l IH]; intros sd Hne.
  - simpl. now rewrite Z.mul_1_r.
  - apply has_empty_axis_cons in Hne as [Hd0 Hne].
    simpl. destruct (Z.eqb_spec d0 0) as [? | _]; [contradiction |].
    rewrite IH by exact Hne.
    change (extent (d0 :: l)) with (d0 * extent l).
    now rewrite Z.mul_assoc.
Qed.

(** The C-order strides of a new array, axis by axis. *)
Lemma c_strides_suffix (size : Z) (dims : list Z) :
  has_empty_axis dims = false ->
  c_strides size dims = suffix_strides size dims.
Proof.
  induction dims as [| d rest IH]; intros Hne; [reflexivity |].
  apply has_empty_axis_cons in Hne as [_ Hne].
  unfold c_strides in *. simpl rev.
  rewrite fill_strides_snoc by now rewrite has_empty_axis_rev.
  rewrite rev_app_distr, extent_rev. simpl. now rewrite IH.
Qed.

(** On a balanced shape the C-order strides pass the Fortran-order test. *)
Lemma balanced_suffix_strides (size : Z) (dims : list Z) :
  forall before,
    balanced before dims ->
    strides_match (size * before) (combine dims (suffix_strides size dims))
    = true.
Proof.
  induction dims as [| d rest IH]; intros before Hbal; [reflexivity |].
  destruct Hbal as [Hhere Hbal]. simpl.
  destruct (Z.eqb_spec d 1) as [-> | Hd].
  - rewrite Z.mul_1_r in Hbal. now apply IH.
  - destruct Hhere as [? | ->]; [contradiction |].
    rewrite Z.eqb_refl. simpl. rewrite <- Z.mul_assoc. now apply IH.
Qed.

Lemma map_fst_combine {A B} (l1 : list A) (l2 : list B) :
  length l2 = length l1 -> map fst (combine l1 l2) = l1.
Proof.
  revert l2. induction l1 as [| x l1 IH]; intros [| y l2] Hlen;
    simpl in *; try discriminate; [reflexivity |].
  f_equal. apply IH. congruence.
Qed.

(** If every extent is at least 1 and the extents multiply to 1, there is
    no axis of extent other than 1. *)
Lemma extent_one_no_proper_axis (dims : list Z) :
  Forall (fun dim => 1 <= dim) dims ->
  extent dims = 1 ->
  proper_axes dims = 0%nat.
Proof.
  induction 1 as [| d rest Hd Hrest IH]; intros Hext; [reflexivity |].
  change (extent (d :: rest)) with (d * extent rest) in Hext.
  assert (Hpos : 1 <= extent rest).
  { clear -Hrest. induction Hrest as [| d rest Hd _ IH]; [reflexivity |].
    change (extent (d :: rest)) with (d * extent rest). nia. }
  assert (d = 1 /\ extent rest = 1) as [-> Hone] by nia.
  unfold proper_axes in *. simpl. now apply IH.
Qed.

(** A balanced shape of extents at least 1 has at most one axis of extent
    other than 1. *)
Lemma balanced_one_proper_axis (dims : list Z) :
  Forall (fun dim => 1 <= dim) dims ->
  balanced 1 dims ->
  (proper_axes dims <= 1)%nat.
Proof.
  induction 1 as [| d rest Hd Hrest IH]; intros Hbal;
    [unfold proper_axes; simpl; lia |].
  destruct Hbal as [Hhere Hbal].
  destruct (Z.eqb_spec d 1) as [-> | Hne].
  - unfold proper_axes in *. simpl. apply IH. exact Hbal.
  - destruct Hhere as [? | Hext]; [contradiction |].
    unfold proper_axes. simpl.
    destruct (Z.eqb_spec d 1) as [? | _]; [contradiction |]. simpl.
    pose proof (extent_one_no_proper_axis rest Hrest Hext) as Hnone.
    unfold proper_axes in Hnone. rewrite Hnone. lia.
Qed.

Lemma no_empty_axis (dims : list Z) :
  Forall (fun dim => 1 <= dim) dims -> has_empty_axis dims = false.
Proof.
  induction 1 as [| d rest Hd _ IH]; [reflexivity |].
  unfold has_empty_axis in *. simpl. rewrite IH.
  destruct (Z.eqb_spec d 0); [lia | reflexivity].
Qed.

(* ===================================================================== *)
(** ** More on align_array: the store, the object returned, its content *)
(* ===================================================================== *)

Section AlignArray.

Context {scalar : Type} {numpy : NumPy scalar}.
Implicit Types (h : heap scalar) (a : ndarray scalar) (arr : addr).

(** [align_array] with a valid order tag is [numpy.require] with subok off,
    the order of the tag, and the flags A and O to check. *)
Lemma align_array_unfold arr dt order h :
  order = "C" \/ order = "F" ->
  align_array arr dt order h
  = (let! arr' := np_array arr (Some dt) (order_of_tag order) false in
     let! a' := deref arr' in
     if ALIGNED a' && OWNDATA a' then ret arr'
     else ndarray_copy arr' (order_of_tag order)) h.
Proof.
  intros [-> | ->]; unfold align_array, require, bind, order_of_tag; simpl;
    destruct (np_array _ _ _ _ h) as [arr' h1 |]; try reflexivity;
    destruct (deref arr' h1) as [a' h2 |]; try reflexivity;
    now rewrite andb_true_r.
Qed.

Lemma new_copy_normalized a order dt (sub : bool) :
  (if sub then exact_type a else true) = true ->
  new_copy a (order_of_tag order) dt sub = normalized_copy a dt order.
Proof.
  intros He. unfold new_copy, normalized_copy, order_of_tag. rewrite He.
  destruct (String.eqb order "F"); reflexivity.
Qed.

Lemma cast_elems_same (d : np_dtype) (l : list scalar) :
  cast_elems d d l = l.
Proof. unfold cast_elems. now rewrite bool_decide_eq_true_2. Qed.

(** What a call with a valid order tag does, in full: on an array that
    meets the requirements, nothing; on any other, it allocates the
    normalized copy under a new name and returns that name. *)
Lemma align_array_outcome arr dt order h a :
  h !! arr = Some a ->
  order = "C" \/ order = "F" ->
  (meets_requirements a dt order = true /\
   align_array arr dt order h = Returns arr h) \/
  (meets_requirements a dt order = false /\
   exists r h',
     align_array arr dt order h = Returns r h' /\
     h !! r = None /\
     (forall k (x : ndarray scalar), h !! k = Some x -> h' !! k = Some x) /\
     h' !! r = Some (normalized_copy a dt order)).
Proof.
  intros Harr Horder. rewrite (align_array_unfold _ _ _ _ Horder).
  unfold meets_requirements, contiguous_in.
  unfold np_array, bind. rewrite (deref_Some _ _ _ Harr). simpl default.
  destruct (decide (dt = dtype a)) as [-> | Hdt].
  - rewrite !bool_decide_eq_true_2 by reflexivity. simpl.
    destruct (STRIDING_OK a (order_of_tag order)) eqn:Hs; simpl.
    + destruct (exact_type a) eqn:He; simpl.
      * unfold ret at 1. rewrite (deref_Some _ _ _ Harr).
        destruct (ALIGNED a && OWNDATA a) eqn:Hflags.
        -- left. split; reflexivity.
        -- right. split; [reflexivity |].
           unfold ndarray_copy, bind. rewrite (deref_Some _ _ _ Harr).
           eexists _, _. repeat split.
           ++ apply fresh_unused.
           ++ intros k x Hk. now apply lookup_alloc_old.
           ++ rewrite new_copy_normalized by exact He.
              apply lookup_alloc_new.
      * right. split; [reflexivity |].
        rewrite (deref_Some _ _ _ (lookup_alloc_new h (base_view a))).
        simpl OWNDATA. rewrite andb_false_r.
        unfold ndarray_copy, bind.
        rewrite (deref_Some _ _ _ (lookup_alloc_new h (base_view a))).
        unfold alloc.
        eexists _, _. repeat split.
        -- eapply lookup_alloc_None. apply fresh_unused.
        -- intros k x Hk. now do 2 apply lookup_alloc_old.
        -- rewrite new_copy_normalized by reflexivity.
           apply lookup_alloc_new.
    + right. split; [now rewrite andb_false_r |].
      rewrite (deref_Some _ _ _ (lookup_alloc_new h _)). simpl.
      eexists _, _. repeat split.
      * apply fresh_unused.
      * intros k x Hk. now apply lookup_alloc_old.
      * rewrite new_copy_normalized by reflexivity. apply lookup_alloc_new.
  - rewrite (bool_decide_eq_false_2 (dt = dtype a)) by exact Hdt.
    rewrite (bool_decide_eq_false_2 (dtype a = dt)) by congruence.
    simpl. right. split; [now rewrite andb_false_r |].
    rewrite (deref_Some _ _ _ (lookup_alloc_new h _)). simpl.
    eexists _, _. repeat split.
    + apply fresh_unused.
    + intros k x Hk. now apply lookup_alloc_old.
    + rewrite new_copy_normalized by reflexivity. apply lookup_alloc_new.
Qed.

Lemma axes_dims a : well_formed a -> map fst (axes a) = shape a.
Proof. intros Hwf. unfold axes. now apply map_fst_combine. Qed.

(** An array with no empty axis that is contiguous in both orders has a
    balanced shape. *)
Lemma both_contiguous_balanced a :
  well_formed a ->
  has_empty_axis (shape a) = false ->
  C_CONTIGUOUS a = true ->
  F_CONTIGUOUS a = true ->
  balanced 1 (shape a).
Proof.
  unfold C_CONTIGUOUS, F_CONTIGUOUS. intros Hwf -> HC HF. simpl in HC, HF.
  rewrite <- (axes_dims a Hwf).
  apply (both_balanced (axes a) (itemsize (dtype a))).
  - pose proof (itemsize_positive (dtype a)). lia.
  - now rewrite Z.mul_1_r.
  - now apply strides_match_rev.
Qed.

(** With two or more axes of extent other than 1, an array is not
    contiguous in both orders. *)
Lemma orders_exclusive a :
  well_formed a ->
  Forall (fun dim => 1 <= dim) (shape a) ->
  (2 <= proper_axes (shape a))%nat ->
  C_CONTIGUOUS a && F_CONTIGUOUS a = false.
Proof.
  intros Hwf Hdims Hproper.
  destruct (C_CONTIGUOUS a) eqn:HC; [| reflexivity].
  destruct (F_CONTIGUOUS a) eqn:HF; [| reflexivity].
  pose proof (both_contiguous_balanced a Hwf (no_empty_axis _ Hdims) HC HF)
    as Hbal.
  pose proof (balanced_one_proper_axis _ Hdims Hbal). lia.
Qed.

Lemma normalized_copy_well_formed a dt order :
  well_formed (normalized_copy a dt order).
Proof.
  unfold well_formed, normalized_copy, c_strides, f_strides. simpl.
  destruct (String.eqb order "F");
    rewrite ?length_rev, fill_strides_length, ?length_rev; reflexivity.
Qed.

Lemma normalized_copy_meets a dt order :
  meets_requirements (normalized_copy a dt order) dt order = true.
Proof.
  rewrite <- (new_copy_normalized a order dt false) by reflexivity.
  now apply new_copy_meets_requirements.
Qed.

(** The array a first call leaves under the name it returns: it meets the
    requirements, and has the shape of the input. *)
Lemma align_array_result arr dt order h a :
  h !! arr = Some a ->
  order = "C" \/ order = "F" ->
  exists r h' a',
    align_array arr dt order h = Returns r h' /\
    h' !! r = Some a' /\
    meets_requirements a' dt order = true /\
    (a' = a \/ a' = normalized_copy a dt order).
Proof.
  intros Harr Horder.
  destruct (align_array_outcome arr dt order h a Harr Horder)
    as [[Hmeets Hrun] | [_ (r & h' & Hrun & _ & _ & Hr)]].
  - exists arr, h, a. auto.
  - exists r, h', (normalized_copy a dt order).
    repeat split; auto using normalized_copy_meets.
Qed.

(** X1. A call of [align_array] with a valid order tag removes no array
    from the store and changes none: every array of the store before the
    call, the argument among them, is there unchanged after it. *)
Theorem align_array_keeps_store arr dt order h a :
  h !! arr = Some a ->
  order = "C" \/ order = "F" ->
  exists r h',
    align_array arr dt order h = Returns r h' /\
    forall k (x : ndarray scalar), h !! k = Some x -> h' !! k = Some x.
Proof.
  intros Harr Horder.
  destruct (align_array_outcome arr dt order h a Harr Horder)
    as [[_ Hrun] | [_ (r & h' & Hrun & _ & Hkeep & _)]].
  - exists arr, h. split; [exact Hrun | auto].
  - exists r, h'. split; [exact Hrun | exact Hkeep].
Qed.

(** X2. [align_array] returns its argument exactly when the argument meets
    the requirements; otherwise the array it returns is a new object, one
    the store did not hold before the call. *)
Theorem align_array_returns_input_iff arr dt order h a :
  h !! arr = Some a ->
  order = "C" \/ order = "F" ->
  exists r h',
    align_array arr dt order h = Returns r h' /\
    (r = arr <-> meets_requirements a dt order = true) /\
    (r <> arr -> h !! r = None).
Proof.
  intros Harr Horder.
  destruct (align_array_outcome arr dt order h a Harr Horder)
    as [[Hmeets Hrun] | [Hmeets (r & h' & Hrun & Hnew & _ & _)]].
  - exists arr, h. split; [exact Hrun |]. split; [tauto |].
    intros Hne. contradiction.
  - exists r, h'. split; [exact Hrun |]. split; [| auto].
    split.
    + intros ->. congruence.
    + intros Habs. congruence.
Qed.

(** X3. The array [align_array] returns has the shape of its argument and
    holds the argument's elements: the same elements when the element type
    asked is the argument's, the elements converted to it otherwise. *)
Theorem align_array_keeps_content arr dt order h a :
  h !! arr = Some a ->
  order = "C" \/ order = "F" ->
  exists r h' a',
    align_array arr dt order h = Returns r h' /\
    h' !! r = Some a' /\
    shape a' = shape a /\
    (dtype a = dt -> elems a' = elems a) /\
    (dtype a <> dt -> elems a' = map (cast (dtype a) dt) (elems a)).
Proof.
  intros Harr Horder.
  destruct (align_array_outcome arr dt order h a Harr Horder)
    as [[Hmeets Hrun] | [_ (r & h' & Hrun & _ & _ & Hr)]].
  - exists arr, h, a. repeat split; auto.
    intros Hne. unfold meets_requirements in Hmeets.
    rewrite (bool_decide_eq_false_2 _ Hne), andb_false_r in Hmeets.
    discriminate.
  - exists r, h', (normalized_copy a dt order).
    repeat split; auto; simpl; unfold cast_elems.
    + intros ->. now rewrite bool_decide_eq_true_2.
    + intros Hne. now rewrite bool_decide_eq_false_2.
Qed.

Lemma short_shape_orders a :
  (length (shape a) <= 1)%nat -> C_CONTIGUOUS a = F_CONTIGUOUS a.
Proof.
  unfold C_CONTIGUOUS, F_CONTIGUOUS, axes.
  destruct (shape a) as [| d [| d' rest]]; destruct (strides a) as [| t ts];
    simpl; intros; try lia; reflexivity.
Qed.

Lemma short_shape_strides (size : Z) (dims : list Z) :
  (length dims <= 1)%nat -> c_strides size dims = f_strides size dims.
Proof.
  destruct dims as [| d [| d' rest]]; simpl; intros; try lia; reflexivity.
Qed.

(** On an array of at most one axis the requirements for the two orders
    are the same. *)
Lemma short_shape_requirements a dt o1 o2 :
  (length (shape a) <= 1)%nat ->
  meets_requirements a dt o1 = meets_requirements a dt o2.
Proof.
  intros Hshort. unfold meets_requirements, contiguous_in, order_of_tag.
  destruct (String.eqb o1 "F"), (String.eqb o2 "F"); simpl STRIDING_OK;
    rewrite ?(short_shape_orders a Hshort); reflexivity.
Qed.

(** X4. For an array of at most one axis the two orders coincide: what
    [align_array] returned for one order tag, a further [align_array] with
    either order tag returns as it is, the same object, and leaves the
    store alone. *)
Theorem align_array_vector_any_order arr dt o1 o2 h a :
  h !! arr = Some a ->
  (length (shape a) <= 1)%nat ->
  o1 = "C" \/ o1 = "F" ->
  o2 = "C" \/ o2 = "F" ->
  exists r1 h1,
    align_array arr dt o1 h = Returns r1 h1 /\
    align_array r1 dt o2 h1 = Returns r1 h1.
Proof.
  intros Harr Hshort Ho1 Ho2.
  destruct (align_array_result arr dt o1 h a Harr Ho1)
    as (r1 & h1 & a1 & Hrun1 & Hr1 & Hmeets1 & Ha1).
  exists r1, h1. split; [exact Hrun1 |].
  assert (Hshort1 : (length (shape a1) <= 1)%nat).
  { destruct Ha1 as [-> | ->]; exact Hshort. }
  rewrite (short_shape_requirements a1 dt o1 o2 Hshort1) in Hmeets1.
  destruct (align_array_outcome r1 dt o2 h1 a1 Hr1 Ho2)
    as [[_ Hrun2] | [Habs _]]; [exact Hrun2 | congruence].
Qed.

(** X5. For an array with two or more axes of extent above 1, the two
    orders exclude each other: [align_array] in one order, then in the
    other order on the result, returns a new object the second time. *)
Theorem align_array_other_order_copies arr dt o1 o2 h a :
  h !! arr = Some a ->
  well_formed a ->
  Forall (fun dim => 1 <= dim) (shape a) ->
  (2 <= proper_axes (shape a))%nat ->
  (o1 = "C" /\ o2 = "F") \/ (o1 = "F" /\ o2 = "C") ->
  exists r1 h1 r2 h2,
    align_array arr dt o1 h = Returns r1 h1 /\
    align_array r1 dt o2 h1 = Returns r2 h2 /\
    r2 <> r1 /\
    h1 !! r2 = None.
Proof.
  intros Harr Hwf Hdims Hproper Horders.
  assert (Ho1 : o1 = "C" \/ o1 = "F") by tauto.
  assert (Ho2 : o2 = "C" \/ o2 = "F") by tauto.
  destruct (align_array_result arr dt o1 h a Harr Ho1)
    as (r1 & h1 & a1 & Hrun1 & Hr1 & Hmeets1 & Ha1).
  assert (Hexcl : C_CONTIGUOUS a1 && F_CONTIGUOUS a1 = false).
  { destruct Ha1 as [-> | ->]; apply orders_exclusive; auto.
    apply normalized_copy_well_formed. }
  assert (Hmeets2 : meets_requirements a1 dt o2 = false).
  { unfold meets_requirements, contiguous_in in Hmeets1 |- *.
    destruct Horders as [[-> ->] | [-> ->]];
      change (order_of_tag "C") with CORDER in *;
      change (order_of_tag "F") with FORTRANORDER in *;
      simpl STRIDING_OK in *;
      destruct (C_CONTIGUOUS a1), (F_CONTIGUOUS a1);
      rewrite ?andb_false_r in *; simpl in *;
      solve [reflexivity | discriminate]. }
  destruct (align_array_outcome r1 dt o2 h1 a1 Hr1 Ho2)
    as [[Habs _] | [_ (r2 & h2 & Hrun2 & Hnew & _ & _)]]; [congruence |].
  exists r1, h1, r2, h2. repeat split; auto.
  intros ->. congruence.
Qed.

End AlignArray.

(* ===================================================================== *)
(** ** More on promote_to_double_precision *)
(* ===================================================================== *)

Section Promote.

Context {scalar : Type} {numpy : NumPy scalar}.
Implicit Types (h : heap scalar) (a : ndarray scalar) (array arr : addr).

(** What a call does, in full: on an array of single precision it allocates
    the converted array under a new name; on any other, nothing. *)
Lemma promote_outcome array h a :
  h !! array = Some a ->
  (single_precision (dtype a) = false /\
   promote_to_double_precision array h = Returns array h) \/
  (single_precision (dtype a) = true /\
   exists r h',
     promote_to_double_precision array h = Returns r h' /\
     h !! r = None /\
     (forall k (x : ndarray scalar), h !! k = Some x -> h' !! k = Some x) /\
     h' !! r = Some (new_copy a KEEPORDER (promoted (dtype a)) true)).
Proof.
  intros Harr. rewrite (promote_unfold _ _ _ Harr).
  destruct (dtype a) eqn:Hd; simpl;
    try (left; split; reflexivity);
    right; (split; [reflexivity |]);
    unfold astype, bind; rewrite (deref_Some _ _ _ Harr); simpl;
    rewrite Hd; simpl;
    eexists _, _; (split; [reflexivity |]);
    (split; [apply fresh_unused |]);
    (split; [intros k x Hk; now apply lookup_alloc_old |]);
    apply lookup_alloc_new.
Qed.

Lemma promoted_double (d : np_dtype) :
  single_precision d = false -> promoted d = d.
Proof. destruct d; simpl; intros; (reflexivity || discriminate). Qed.

(** X6. [promote_to_double_precision] removes no array from the store and
    changes none, its argument included; it returns its argument exactly
    when the element type compares equal to neither "float32" nor
    "complex64", and a new object otherwise.  An array in the byte order
    that is not the machine's, of single precision or not, is returned
    itself. *)
Theorem promote_keeps_store array h a :
  h !! array = Some a ->
  exists r h',
    promote_to_double_precision array h = Returns r h' /\
    (forall k (x : ndarray scalar), h !! k = Some x -> h' !! k = Some x) /\
    (r = array <->
     dtype_eq_name (dtype a) "float32" = false /\
     dtype_eq_name (dtype a) "complex64" = false) /\
    (native_byte_order (dtype a) = false -> r = array) /\
    (r <> array -> h !! r = None).
Proof.
  intros Harr.
  destruct (promote_outcome array h a Harr)
    as [[Hd Hrun] | [Hd (r & h' & Hrun & Hnew & Hkeep & _)]].
  - exists array, h. split; [exact Hrun |]. split; [auto |]. split.
    + split; [intros _ | reflexivity].
      destruct (dtype a); simpl in Hd;
        solve [discriminate | split; reflexivity].
    + split; [reflexivity |]. intros Hne. contradiction.
  - exists r, h'. split; [exact Hrun |]. split; [exact Hkeep |]. split.
    + split.
      * intros ->. congruence.
      * intros [H32 H64]. destruct (dtype a); simpl in Hd;
          solve [discriminate].
    + split; [| intros _; exact Hnew].
      intros Hswapped. destruct (dtype a); simpl in Hd, Hswapped;
        discriminate.
Qed.

(** X7. The element type of the array returned compares equal to neither
    "float32" nor "complex64": no array of single precision in the byte
    order of the machine is returned.  An array in the other byte order
    keeps its element type, single precision included.  The array returned
    has the shape of the argument and its type (an instance of a subclass
    stays one). *)
Theorem promote_result_double array h a :
  h !! array = Some a ->
  exists r h' a',
    promote_to_double_precision array h = Returns r h' /\
    h' !! r = Some a' /\
    dtype_eq_name (dtype a') "float32" = false /\
    dtype_eq_name (dtype a') "complex64" = false /\
    dtype a' = promoted (dtype a) /\
    (native_byte_order (dtype a) = false -> dtype a' = dtype a) /\
    shape a' = shape a /\
    exact_type a' = exact_type a.
Proof.
  intros Harr.
  assert (Hp : dtype_eq_name (promoted (dtype a)) "float32" = false /\
               dtype_eq_name (promoted (dtype a)) "complex64" = false)
    by (destruct (dtype a); split; reflexivity).
  assert (Hs : native_byte_order (dtype a) = false ->
               promoted (dtype a) = dtype a)
    by (destruct (dtype a); simpl; intros; (reflexivity || discriminate)).
  destruct Hp as [Hp32 Hp64].
  destruct (promote_outcome array h a Harr)
    as [[Hd Hrun] | [Hd (r & h' & Hrun & _ & _ & Hr)]].
  - exists array, h, a. rewrite (promoted_double _ Hd) in *.
    repeat split; auto.
  - exists r, h', (new_copy a KEEPORDER (promoted (dtype a)) true).
    repeat split; auto.
Qed.

(** A copy in 'K' order of an array contiguous in C order is contiguous in
    C order. *)
Lemma keeporder_c_contiguous a dt (sub : bool) :
  C_CONTIGUOUS a = true ->
  C_CONTIGUOUS (new_copy a KEEPORDER dt sub) = true.
Proof.
  intros HC. unfold new_copy, order_strides. rewrite HC. simpl orb. cbv iota.
  exact (c_strides_contiguous (itemsize dt) (shape a)).
Qed.

(** The same in Fortran order, for an array with a stride per axis. *)
Lemma keeporder_f_contiguous a dt (sub : bool) :
  well_formed a ->
  F_CONTIGUOUS a = true ->
  F_CONTIGUOUS (new_copy a KEEPORDER dt sub) = true.
Proof.
  intros Hwf HF.
  unfold F_CONTIGUOUS at 1. unfold axes, new_copy. simpl.
  destruct (has_empty_axis (shape a)) eqn:Hne; [reflexivity |]. simpl.
  pose proof (f_strides_contiguous (itemsize dt) (shape a)) as Hf.
  rewrite Hne in Hf. simpl in Hf.
  destruct (C_CONTIGUOUS a) eqn:HC; simpl.
  - rewrite c_strides_suffix by exact Hne.
    pose proof (balanced_suffix_strides (itemsize dt) (shape a) 1
                  (both_contiguous_balanced a Hwf Hne HC HF)) as Hb.
    now rewrite Z.mul_1_r in Hb.
  - destruct (Z.leb_spec (Z.of_nat (length (shape a))) 1) as [Hshort | _].
    + rewrite short_shape_strides by lia. exact Hf.
    + rewrite HF. exact Hf.
Qed.

(** X8. [promote_to_double_precision] keeps the memory order of an array
    with a stride per axis: the array returned is contiguous in C order if
    the argument is, and contiguous in Fortran order if the argument is. *)
Theorem promote_keeps_layout array h a :
  h !! array = Some a ->
  well_formed a ->
  exists r h' a',
    promote_to_double_precision array h = Returns r h' /\
    h' !! r = Some a' /\
    (C_CONTIGUOUS a = true -> C_CONTIGUOUS a' = true) /\
    (F_CONTIGUOUS a = true -> F_CONTIGUOUS a' = true).
Proof.
  intros Harr Hwf.
  destruct (promote_outcome array h a Harr)
    as [[Hd Hrun] | [Hd (r & h' & Hrun & _ & _ & Hr)]].
  - exists array, h, a. auto.
  - exists r, h', (new_copy a KEEPORDER (promoted (dtype a)) true).
    repeat split; auto.
    + apply keeporder_c_contiguous.
    + now apply keeporder_f_contiguous.
Qed.

(** X9. The two helpers compose: an array normalized by [align_array] and
    then promoted still meets the requirements for the promoted element
    type and the same order, so that a further [align_array] returns it as
    it is and leaves the store alone. *)
Theorem align_promote_align arr dt order h a :
  h !! arr = Some a ->
  well_formed a ->
  order = "C" \/ order = "F" ->
  exists r1 h1 r2 h2,
    align_array arr dt order h = Returns r1 h1 /\
    promote_to_double_precision r1 h1 = Returns r2 h2 /\
    align_array r2 (promoted dt) order h2 = Returns r2 h2.
Proof.
  intros Harr Hwf Horder.
  destruct (align_array_result arr dt order h a Harr Horder)
    as (r1 & h1 & a1 & Hrun1 & Hr1 & Hmeets1 & Ha1).
  assert (Hwf1 : well_formed a1).
  { destruct Ha1 as [-> | ->]; auto using normalized_copy_well_formed. }
  assert (Hgoal : forall r2 h2 a2,
             h2 !! r2 = Some a2 ->
             meets_requirements a2 (promoted dt) order = true ->
             align_array r2 (promoted dt) order h2 = Returns r2 h2).
  { intros r2 h2 a2 Hr2 Hmeets2.
    destruct (align_array_outcome r2 (promoted dt) order h2 a2 Hr2 Horder)
      as [[_ Hrun] | [Habs _]]; [exact Hrun | congruence]. }
  unfold meets_requirements in Hmeets1.
  apply andb_true_iff in Hmeets1 as [Hmeets1 Hown].
  apply andb_true_iff in Hmeets1 as [Hmeets1 Haligned].
  apply andb_true_iff in Hmeets1 as [Hmeets1 Hcontiguous].
  apply andb_true_iff in Hmeets1 as [Hexact Hdtype].
  apply bool_decide_eq_true_1 in Hdtype.
  destruct (promote_outcome r1 h1 a1 Hr1)
    as [[Hd Hrun2] | [Hd (r2 & h2 & Hrun2 & _ & _ & Hr2)]].
  - exists r1, h1, r1, h1. split; [exact Hrun1 |]. split; [exact Hrun2 |].
    apply (Hgoal _ _ a1 Hr1).
    rewrite <- Hdtype, (promoted_double _ Hd).
    unfold meets_requirements.
    rewrite Hexact, Hcontiguous, Haligned, Hown.
    now rewrite bool_decide_eq_true_2.
  - exists r1, h1, r2, h2. split; [exact Hrun1 |]. split; [exact Hrun2 |].
    apply (Hgoal _ _ _ Hr2).
    rewrite <- Hdtype. unfold meets_requirements.
    assert (Hc : contiguous_in order
                   (new_copy a1 KEEPORDER (promoted (dtype a1)) true) = true).
    { unfold contiguous_in, order_of_tag in *.
      destruct (String.eqb order "F"); simpl STRIDING_OK in *.
      - now apply keeporder_f_contiguous.
      - now apply keeporder_c_contiguous. }
    rewrite Hc. simpl. rewrite Hexact.
    now rewrite bool_decide_eq_true_2.
Qed.

End Promote.

(* ===================================================================== *)
(** ** More on assign_parameters and the factories *)
(* ===================================================================== *)

(** X10. [assign_parameters] is idempotent: resolving what it returned
    returns the same value again. *)
Theorem assign_parameters_idempotent (parameters : value) (api : bempp_api) :
  exists resolved,
    assign_parameters parameters api = Returns resolved api /\
    assign_parameters resolved api = Returns resolved api.
Proof.
  destruct parameters; try (eexists; split; reflexivity).
  exists (GLOBAL_PARAMETERS api). split; [reflexivity |].
  unfold assign_parameters, bind, gets, ret.
  destruct (GLOBAL_PARAMETERS api) eqn:Hg; try reflexivity.
  now rewrite Hg.
Qed.

(** X11. [assign_parameters] returns None only when it is given None and
    the module holds no global parameters object either. *)
Theorem assign_parameters_none_iff (parameters : value) (api : bempp_api) :
  exists resolved,
    assign_parameters parameters api = Returns resolved api /\
    (resolved = VNone <->
     parameters = VNone /\ GLOBAL_PARAMETERS api = VNone).
Proof.
  destruct parameters;
    try (eexists; split; [reflexivity |];
         split; [discriminate | intros [Habs _]; discriminate]).
  exists (GLOBAL_PARAMETERS api). split; [reflexivity | tauto].
Qed.

Section FactoriesMore.

Import laplace.

(** X12. The identifier of a descriptor tells which factory built it, and
    so does its kernel type: two calls whose descriptors agree on either
    are calls of the same factory. *)
Theorem descriptor_identifies_factory
    (f g : factory)
    (space points parameters assembler device_interface precision : value)
    (space' points' parameters' assembler' device_interface' precision'
       : value)
    (api api' : bempp_api) :
  exists op op',
    call f space points parameters assembler device_interface precision api
    = Returns op api /\
    call g space' points' parameters' assembler' device_interface' precision'
         api'
    = Returns op' api' /\
    (identifier (descriptor_of op) = identifier (descriptor_of op') ->
     f = g) /\
    (kernel_type (descriptor_of op) = kernel_type (descriptor_of op') ->
     f = g).
Proof.
  destruct (call_returns f space points parameters assembler
              device_interface precision api) as [op Hop].
  destruct (call_returns g space' points' parameters' assembler'
              device_interface' precision' api') as [op' Hop'].
  exists op, op'. split; [exact Hop |]. split; [exact Hop' |].
  destruct f, g, precision, precision'; cbn in Hop, Hop';
    injection Hop as <-; injection Hop' as <-; cbn;
    split; intros Heq; solve [reflexivity | discriminate Heq].
Qed.

(** X13. The descriptor a factory builds depends on the precision argument
    and on nothing else the caller passes: calls of one factory with the
    same precision build the same descriptor, whatever the space, the
    points, the parameters, the assembler and the device interface. *)
Theorem descriptor_ignores_other_arguments
    (f : factory)
    (space points parameters assembler device_interface : value)
    (space' points' parameters' assembler' device_interface' : value)
    (precision : value) (api : bempp_api) :
  exists op op',
    call f space points parameters assembler device_interface precision api
    = Returns op api /\
    call f space' points' parameters' assembler' device_interface' precision
         api
    = Returns op' api /\
    descriptor_of op = descriptor_of op'.
Proof.
  destruct f, precision; cbn; eexists _, _;
    (split; [reflexivity |]); (split; [reflexivity |]); reflexivity.
Qed.

(** X14. A consumer that resolves the forwarded parameters with
    [assign_parameters] obtains the caller's parameters object when one was
    given, and the global parameters object when none was. *)
Theorem forwarded_parameters_resolve
    (f : factory)
    (space points parameters assembler device_interface precision : value)
    (api : bempp_api) :
  exists op resolved,
    call f space points parameters assembler device_interface precision api
    = Returns op api /\
    assign_parameters (pa_parameters (po_assembler op)) api
    = Returns resolved api /\
    (parameters = VNone -> resolved = GLOBAL_PARAMETERS api) /\
    (parameters <> VNone -> resolved = parameters).
Proof.
  destruct (call_returns f space points parameters assembler
              device_interface precision api) as [op Hop].
  exists op. destruct f, precision; cbn in Hop; injection Hop as <-; cbn;
    destruct parameters; eexists; (split; [reflexivity |]);
    (split; [reflexivity |]); cbn; split; intros H;
    solve [reflexivity | discriminate H | contradiction].
Qed.

End FactoriesMore.

(* ===================================================================== *)
(** ** The further properties at concrete calls *)
(* ===================================================================== *)

(** The 2x3 float32 matrix, put in C order and then in Fortran order as
    float32: the first call returns the matrix itself, the second a new
    array with column-major strides. *)
Example align_array_matrix_C_then_F :
  align_array 1%nat float32 "C" sample_heap = Returns 1%nat sample_heap /\
  exists h',
    align_array 1%nat float32 "F" sample_heap = Returns 5%nat h' /\
    h' !! 5%nat
    = Some (mkndarray true float32 [2; 3] [4; 8] [1; 2; 3; 4; 5; 6]
                      true true true).
Proof.
  split; [vm_compute; reflexivity |].
  eexists. split; vm_compute; reflexivity.
Qed.

Lemma sample_heap_matrix : sample_heap !! 1%nat = Some float32_matrix.
Proof. vm_compute. reflexivity. Defined.

Lemma sample_heap_vector : sample_heap !! 4%nat = Some int64_vector.
Proof. vm_compute. reflexivity. Defined.

Lemma float32_matrix_extents :
  Forall (fun dim => 1 <= dim) (shape float32_matrix).
Proof. repeat constructor; discriminate. Defined.

Lemma align_array_keeps_store_witness :
  sample_heap !! 1%nat = Some float32_matrix /\
  exists r h',
    align_array 1%nat float64 "F" sample_heap = Returns r h' /\
    forall k (x : ndarray Z), sample_heap !! k = Some x -> h' !! k = Some x.
Proof.
  split; [exact sample_heap_matrix |].
  exact (align_array_keeps_store 1%nat float64 "F" sample_heap
           float32_matrix sample_heap_matrix (or_intror eq_refl)).
Defined.

Lemma align_array_returns_input_iff_witness :
  sample_heap !! 1%nat = Some float32_matrix /\
  exists r h',
    align_array 1%nat float64 "F" sample_heap = Returns r h' /\
    (r = 1%nat <-> meets_requirements float32_matrix float64 "F" = true) /\
    (r <> 1%nat -> sample_heap !! r = None).
Proof.
  split; [exact sample_heap_matrix |].
  exact (align_array_returns_input_iff 1%nat float64 "F" sample_heap
           float32_matrix sample_heap_matrix (or_intror eq_refl)).
Defined.

Lemma align_array_keeps_content_witness :
  sample_heap !! 1%nat = Some float32_matrix /\
  exists r h' a',
    align_array 1%nat float64 "F" sample_heap = Returns r h' /\
    h' !! r = Some a' /\
    shape a' = shape float32_matrix /\
    (dtype float32_matrix = float64 -> elems a' = elems float32_matrix) /\
    (dtype float32_matrix <> float64 ->
     elems a' = map (cast (dtype float32_matrix) float64)
                    (elems float32_matrix)).
Proof.
  split; [exact sample_heap_matrix |].
  exact (align_array_keeps_content 1%nat float64 "F" sample_heap
           float32_matrix sample_heap_matrix (or_intror eq_refl)).
Defined.

Lemma align_array_vector_any_order_witness :
  sample_heap !! 2%nat = Some float64_view /\
  (length (shape float64_view) <= 1)%nat /\
  exists r1 h1,
    align_array 2%nat float64 "C" sample_heap = Returns r1 h1 /\
    align_array r1 float64 "F" h1 = Returns r1 h1.
Proof.
  assert (Hlook : sample_heap !! 2%nat = Some float64_view)
    by (vm_compute; reflexivity).
  split; [exact Hlook |].
  split; [apply le_n |].
  exact (align_array_vector_any_order 2%nat float64 "C" "F" sample_heap
           float64_view Hlook (le_n 1) (or_introl eq_refl)
           (or_intror eq_refl)).
Defined.

Lemma align_array_other_order_copies_witness :
  sample_heap !! 1%nat = Some float32_matrix /\
  well_formed float32_matrix /\
  (2 <= proper_axes (shape float32_matrix))%nat /\
  exists r1 h1 r2 h2,
    align_array 1%nat float32 "C" sample_heap = Returns r1 h1 /\
    align_array r1 float32 "F" h1 = Returns r2 h2 /\
    r2 <> r1 /\
    h1 !! r2 = None.
Proof.
  split; [exact sample_heap_matrix |].
  split; [reflexivity |].
  split; [apply le_n |].
  exact (align_array_other_order_copies 1%nat float32 "C" "F" sample_heap
           float32_matrix sample_heap_matrix eq_refl float32_matrix_extents
           (le_n 2) (or_introl (conj eq_refl eq_refl))).
Defined.

Lemma promote_keeps_store_witness :
  sample_heap !! 1%nat = Some float32_matrix /\
  exists r h',
    promote_to_double_precision 1%nat sample_heap = Returns r h' /\
    (forall k (x : ndarray Z), sample_heap !! k = Some x -> h' !! k = Some x)
    /\
    (r = 1%nat <->
     dtype_eq_name (dtype float32_matrix) "float32" = false /\
     dtype_eq_name (dtype float32_matrix) "complex64" = false) /\
    (native_byte_order (dtype float32_matrix) = false -> r = 1%nat) /\
    (r <> 1%nat -> sample_heap !! r = None).
Proof.
  split; [exact sample_heap_matrix |].
  exact (promote_keeps_store 1%nat sample_heap float32_matrix
           sample_heap_matrix).
Defined.

Lemma promote_result_double_witness :
  sample_heap !! 1%nat = Some float32_matrix /\
  exists r h' a',
    promote_to_double_precision 1%nat sample_heap = Returns r h' /\
    h' !! r = Some a' /\
    dtype_eq_name (dtype a') "float32" = false /\
    dtype_eq_name (dtype a') "complex64" = false /\
    dtype a' = promoted (dtype float32_matrix) /\
    (native_byte_order (dtype float32_matrix) = false ->
     dtype a' = dtype float32_matrix) /\
    shape a' = shape float32_matrix /\
    exact_type a' = exact_type float32_matrix.
Proof.
  split; [exact sample_heap_matrix |].
  exact (promote_result_double 1%nat sample_heap float32_matrix
           sample_heap_matrix).
Defined.

Lemma promote_keeps_layout_witness :
  sample_heap !! 1%nat = Some float32_matrix /\
  well_formed float32_matrix /\
  exists r h' a',
    promote_to_double_precision 1%nat sample_heap = Returns r h' /\
    h' !! r = Some a' /\
    (C_CONTIGUOUS float32_matrix = true -> C_CONTIGUOUS a' = true) /\
    (F_CONTIGUOUS float32_matrix = true -> F_CONTIGUOUS a' = true).
Proof.
  split; [exact sample_heap_matrix |].
  split; [reflexivity |].
  exact (promote_keeps_layout 1%nat sample_heap float32_matrix
           sample_heap_matrix eq_refl).
Defined.

Lemma align_promote_align_witness :
  sample_heap !! 1%nat = Some float32_matrix /\
  well_formed float32_matrix /\
  exists r1 h1 r2 h2,
    align_array 1%nat float32 "F" sample_heap = Returns r1 h1 /\
    promote_to_double_precision r1 h1 = Returns r2 h2 /\
    align_array r2 (promoted float32) "F" h2 = Returns r2 h2.
Proof.
  split; [exact sample_heap_matrix |].
  split; [reflexivity |].
  exact (align_promote_align 1%nat float32 "F" sample_heap float32_matrix
           sample_heap_matrix eq_refl (or_intror eq_refl)).
Defined.
